(** * go-sbv-to-srt: the SBV parser and the SRT formatter of pkg/sbv/convert.go

    A shallow embedding of [pkg/sbv/convert.go] and the properties of its
    specification.  Go strings are byte strings: they are modelled by
    [string] (a list of 8-bit [ascii]).  [int] and [time.Duration] are
    64-bit signed integers: they are modelled by [Z], the wrap-around of the
    arithmetic of [parseTime] written out with [wrap64].  The [float64]
    values of [formatSRTTime] are modelled by exact rationals.  A Go
    function that returns [(value, error)] is modelled by the sum [result];
    the exported [ParseFromReader] keeps Go's pair of a slice and an
    error. *)

From Stdlib Require Import ZArith QArith List Bool Lia.
From Stdlib Require Import Strings.Ascii Strings.String Numbers.DecimalString.
Import ListNotations.

Open Scope string_scope.
Open Scope Z_scope.

(** ** The Go library functions the package calls *)

Module GoLib.

Definition nl : ascii := "010"%char.
Definition cr : ascii := "013"%char.

Definition byte (n : N) : ascii := ascii_of_N n.

(** [len(s)] as an integer. *)
Fixpoint len (s : string) : Z :=
  match s with
  | EmptyString => 0
  | String _ r => 1 + len r
  end.

(** [strings.ContainsRune(s, r)] for a rune [r] below [utf8.RuneSelf]:
    [IndexByte(s, byte(r)) >= 0]. *)
Fixpoint ContainsRune (s : string) (r : ascii) : bool :=
  match s with
  | EmptyString => false
  | String c t => if Ascii.eqb c r then true else ContainsRune t r
  end.

(** [strings.Split(s, sep)] for a one-byte separator: the substrings
    between the separators, one more than there are separators; the empty
    string gives one empty part. *)
Fixpoint Split (s : string) (sep : ascii) : list string :=
  match s with
  | EmptyString => [EmptyString]
  | String c t =>
      if Ascii.eqb c sep then EmptyString :: Split t sep
      else match Split t sep with
           | p :: ps => String c p :: ps
           | [] => [String c EmptyString]
           end
  end.

(** [strings.Join(elems, sep)]. *)
Fixpoint Join (elems : list string) (sep : string) : string :=
  match elems with
  | [] => EmptyString
  | [e] => e
  | e :: rest => e ++ sep ++ Join rest sep
  end.

(** *** [strings.TrimSpace]

    The white space of [unicode.IsSpace]: the six ASCII bytes of the
    table [asciiSpace], and the runes U+0085, U+00A0, U+1680,
    U+2000..U+200A, U+2028, U+2029, U+202F, U+205F, U+3000, which a string
    holds in their UTF-8 encodings of two or three bytes.  A byte sequence
    that is not a valid encoding decodes to [utf8.RuneError], which is not
    white space, so trimming stops there. *)

Definition asciiSpace (c : ascii) : bool :=
  match N_of_ascii c with
  | 9%N | 10%N | 11%N | 12%N | 13%N | 32%N => true
  | _ => false
  end.

(** U+0085 is C2 85 and U+00A0 is C2 A0. *)
Definition space2 (a b : ascii) : bool :=
  match N_of_ascii a, N_of_ascii b with
  | 194%N, 133%N | 194%N, 160%N => true
  | _, _ => false
  end.

(** U+1680 is E1 9A 80; U+2000..U+200A are E2 80 80..8A; U+2028, U+2029
    and U+202F are E2 80 A8, A9 and AF; U+205F is E2 81 9F; U+3000 is
    E3 80 80. *)
Definition space3 (a b c : ascii) : bool :=
  match N_of_ascii a, N_of_ascii b, N_of_ascii c with
  | 225%N, 154%N, 128%N => true
  | 226%N, 128%N, n => ((128 <=? n) && (n <=? 138) || (n =? 168) || (n =? 169) || (n =? 175))%N
  | 226%N, 129%N, 159%N => true
  | 227%N, 128%N, 128%N => true
  | _, _, _ => false
  end.

(** [TrimLeftFunc(s, unicode.IsSpace)]: runes are decoded from the front
    while they are white space. *)
Fixpoint TrimLeftSpace (s : string) : string :=
  match s with
  | EmptyString => EmptyString
  | String a t1 =>
      if asciiSpace a then TrimLeftSpace t1
      else match t1 with
           | EmptyString => s
           | String b t2 =>
               if space2 a b then TrimLeftSpace t2
               else match t2 with
                    | EmptyString => s
                    | String c t3 =>
                        if space3 a b c then TrimLeftSpace t3 else s
                    end
           end
  end.

Fixpoint rev (s : string) : string :=
  match s with
  | EmptyString => EmptyString
  | String c t => rev t ++ String c EmptyString
  end.

(** The same on the reversed string, for [TrimRightFunc], which decodes
    the runes from the back ([utf8.DecodeLastRuneInString]). *)
Fixpoint TrimLeftSpaceRev (s : string) : string :=
  match s with
  | EmptyString => EmptyString
  | String a t1 =>
      if asciiSpace a then TrimLeftSpaceRev t1
      else match t1 with
           | EmptyString => s
           | String b t2 =>
               if space2 b a then TrimLeftSpaceRev t2
               else match t2 with
                    | EmptyString => s
                    | String c t3 =>
                        if space3 c b a then TrimLeftSpaceRev t3 else s
                    end
           end
  end.

Definition TrimRightSpace (s : string) : string :=
  rev (TrimLeftSpaceRev (rev s)).

(** [strings.TrimSpace(s)]: its ASCII fast path and its fall-back
    [TrimFunc(s, unicode.IsSpace)] both trim the left end, then the right
    end of what is left. *)
Definition TrimSpace (s : string) : string :=
  TrimRightSpace (TrimLeftSpace s).

(** *** [strconv.Atoi]

    An optional sign [+] or [-], then one or more decimal digits and
    nothing else; the value must fit [int] (64 bits).  Every other string
    gives an error ([ErrSyntax] or [ErrRange]); the callers only test
    [err != nil], so the error is [None] here. *)

Definition isDigit (c : ascii) : bool :=
  let n := N_of_ascii c in ((48 <=? n) && (n <=? 57))%N.

Definition digitVal (c : ascii) : Z := Z.of_N (N_of_ascii c) - 48.

(** The loop [n = n*10 + int(ch - '0')] over the bytes after the sign. *)
Fixpoint digitsLoop (s : string) (n : Z) : option Z :=
  match s with
  | EmptyString => Some n
  | String ch t =>
      if isDigit ch then digitsLoop t (n * 10 + digitVal ch) else None
  end.

Definition minInt : Z := - 2 ^ 63.
Definition maxInt : Z := 2 ^ 63 - 1.

Definition Atoi (s : string) : option Z :=
  match s with
  | EmptyString => None
  | String s0 t =>
      let neg := Ascii.eqb s0 "-"%char in
      let body := if neg || Ascii.eqb s0 "+"%char then t else s in
      match body with
      | EmptyString => None
      | _ =>
          match digitsLoop body 0 with
          | None => None
          | Some n =>
              let v := if neg then - n else n in
              if (minInt <=? v) && (v <=? maxInt) then Some v else None
          end
      end
  end.

(** *** [strconv.Itoa] and the verb [%0wd] of [fmt.Sprintf] *)

Definition Itoa (n : Z) : string := NilZero.string_of_int (Z.to_int n).

Fixpoint zeros (k : nat) : string :=
  match k with
  | O => EmptyString
  | S k' => String "0"%char (zeros k')
  end.

(** [%0wd]: the digits are padded with zeros on the left up to the width
    [w]; a minus sign counts in the width and stays in front. *)
Definition Sprintf0d (w : nat) (n : Z) : string :=
  let digits := Itoa (Z.abs n) in
  if n <? 0
  then String "-"%char (zeros (Nat.pred w - String.length digits) ++ digits)
  else zeros (w - String.length digits) ++ digits.

(** *** [bufio.Scanner] with the default split function [bufio.ScanLines]

    The reader is taken to deliver the whole input and then [io.EOF].
    A token is a line without its end-of-line marker: the bytes up to the
    next newline, one trailing carriage return dropped; the bytes after
    the last newline are a token when there are any.  The buffer of the
    scanner grows up to [MaxScanTokenSize] bytes: a line of that many
    bytes or more, before its newline, stops the scan with [ErrTooLong]. *)

Definition MaxScanTokenSize : Z := 64 * 1024.

Definition dropCR (data : string) : string :=
  match rev data with
  | String c r => if Ascii.eqb c cr then rev r else data
  | EmptyString => data
  end.

Inductive ScanError := ErrTooLong.

(** [Scan] called until it returns false: the tokens, or the error that
    [Err] reports. *)
Definition ScanLines (input : string) : list string + ScanError :=
  let raw := Split input nl in
  let raw := match List.rev raw with
             | EmptyString :: r => List.rev r
             | _ => raw
             end in
  if forallb (fun l => len l <? MaxScanTokenSize) raw
  then inl (map dropCR raw)
  else inr ErrTooLong.

(** *** Package [time]

    [time.Duration] is a count of nanoseconds in an [int64]. *)

Definition Duration := Z.

Definition Nanosecond : Duration := 1.
Definition Microsecond : Duration := 1000 * Nanosecond.
Definition Millisecond : Duration := 1000 * Microsecond.
Definition Second : Duration := 1000 * Millisecond.
Definition Minute : Duration := 60 * Second.
Definition Hour : Duration := 60 * Minute.

(** [Duration.Hours], [Minutes] and [Seconds]: the whole units and the
    rest of the nanoseconds, added as floating-point numbers,
    [float64(d / unit) + float64(d % unit) / float64(unit)], with the
    division and the remainder of Go, which round toward zero.  The
    [float64] values are taken as the exact rationals here: the rounding of
    the quotient and of the sum is left out.  (It cannot reach the next
    whole number for a duration under 24 hours, the only ones that the
    parser makes.) *)
Definition asUnits (d unit : Duration) : Q :=
  (inject_Z (Z.quot d unit) + inject_Z (Z.rem d unit) / inject_Z unit)%Q.

Definition Hours (d : Duration) : Q := asUnits d Hour.
Definition Minutes (d : Duration) : Q := asUnits d Minute.
Definition Seconds (d : Duration) : Q := asUnits d Second.
Definition Nanoseconds (d : Duration) : Z := d.

(** The conversion [int(f)] of a floating-point number: the fraction is
    cut off. *)
Definition int (f : Q) : Z := Z.quot (Qnum f) (Z.pos (Qden f)).

End GoLib.

(** ** Package sbv *)

Module sbv.
Import GoLib.

(** The value an [int64] holds after an operation whose exact result is
    [z]. *)
Definition wrap64 (z : Z) : Z := (z + 2 ^ 63) mod 2 ^ 64 - 2 ^ 63.
Definition mul64 (a b : Z) : Z := wrap64 (a * b).
Definition add64 (a b : Z) : Z := wrap64 (a + b).

Record Subtitle := mkSubtitle {
  StartTime : Duration;
  EndTime : Duration;
  Text : string
}.

Inductive result (A E : Type) :=
| Ok (a : A)
| Err (e : E).
Arguments Ok {A E} a.
Arguments Err {A E} e.

(** *** The errors, one constructor for each [fmt.Errorf] *)

Inductive TimeError :=
| InvalidTimeFormat (timeStr : string)
| InvalidHours (field : string)
| HoursOutOfRange (hours : Z)
| InvalidMinutes (field : string)
| MinutesOutOfRange (minutes : Z)
| InvalidSecondsFormat (field : string)
| InvalidSeconds (field : string)
| SecondsOutOfRange (seconds : Z)
| InvalidMilliseconds (field : string)
| MillisecondsOutOfRange (milliseconds : Z).

Inductive TimestampsError :=
| InvalidTimestampFormat (timestampLine : string)
| FailedStartTime (e : TimeError)
| FailedEndTime (e : TimeError).

Inductive BlockError :=
| StartIndexOutOfBounds
| FailedTimestamps (e : TimestampsError).

Inductive ParseError :=
| ErrorReadingInput (e : ScanError)
| FailedBlock (e : BlockError).

(** The text of the errors: the format strings of the source, [%s] and
    [%d] filled in, [%w] replaced by the text of the wrapped error. *)
Definition TimeError_Error (e : TimeError) : string :=
  match e with
  | InvalidTimeFormat s => "invalid time format: " ++ s
  | InvalidHours s => "invalid hours: " ++ s
  | HoursOutOfRange n => "hours out of range (0-23): " ++ Itoa n
  | InvalidMinutes s => "invalid minutes: " ++ s
  | MinutesOutOfRange n => "minutes out of range (0-59): " ++ Itoa n
  | InvalidSecondsFormat s => "invalid seconds format: " ++ s
  | InvalidSeconds s => "invalid seconds: " ++ s
  | SecondsOutOfRange n => "seconds out of range (0-59): " ++ Itoa n
  | InvalidMilliseconds s => "invalid milliseconds: " ++ s
  | MillisecondsOutOfRange n => "milliseconds out of range (0-999): " ++ Itoa n
  end.

Definition TimestampsError_Error (e : TimestampsError) : string :=
  match e with
  | InvalidTimestampFormat l => "invalid timestamp format: " ++ l
  | FailedStartTime e' => "failed to parse start time: " ++ TimeError_Error e'
  | FailedEndTime e' => "failed to parse end time: " ++ TimeError_Error e'
  end.

Definition BlockError_Error (e : BlockError) : string :=
  match e with
  | StartIndexOutOfBounds => "start index out of bounds"
  | FailedTimestamps e' => "failed to parse timestamps: " ++ TimestampsError_Error e'
  end.

Definition ParseError_Error (e : ParseError) : string :=
  match e with
  | ErrorReadingInput ErrTooLong => "error reading input: bufio.Scanner: token too long"
  | FailedBlock e' => "failed to parse subtitle block: " ++ BlockError_Error e'
  end.

(** *** parseTime *)

Definition outOfRange (v lo hi : Z) : bool := (v <? lo) || (v >? hi).

Definition parseTime (timeStr : string) : result Duration TimeError :=
  match Split timeStr ":" with
  | [p0; p1; p2] =>
      match Atoi p0 with
      | None => Err (InvalidHours p0)
      | Some hours =>
      if outOfRange hours 0 23 then Err (HoursOutOfRange hours) else
      match Atoi p1 with
      | None => Err (InvalidMinutes p1)
      | Some minutes =>
      if outOfRange minutes 0 59 then Err (MinutesOutOfRange minutes) else
      match Split p2 "." with
      | [s0; s1] =>
          match Atoi s0 with
          | None => Err (InvalidSeconds s0)
          | Some seconds =>
          if outOfRange seconds 0 59 then Err (SecondsOutOfRange seconds) else
          match Atoi s1 with
          | None => Err (InvalidMilliseconds s1)
          | Some milliseconds =>
          if outOfRange milliseconds 0 999
          then Err (MillisecondsOutOfRange milliseconds)
          else
            Ok (add64 (add64 (add64 (mul64 hours Hour) (mul64 minutes Minute))
                             (mul64 seconds Second))
                      (mul64 milliseconds Millisecond))
          end end
      | _ => Err (InvalidSecondsFormat p2)
      end end end
  | _ => Err (InvalidTimeFormat timeStr)
  end.

(** *** parseTimestamps *)

Definition parseTimestamps (timestampLine : string)
  : result (Duration * Duration) TimestampsError :=
  match Split timestampLine "," with
  | [part0; part1] =>
      match parseTime (TrimSpace part0) with
      | Err e => Err (FailedStartTime e)
      | Ok startTime =>
          match parseTime (TrimSpace part1) with
          | Err e => Err (FailedEndTime e)
          | Ok endTime => Ok (startTime, endTime)
          end
      end
  | _ => Err (InvalidTimestampFormat timestampLine)
  end.

(** *** isTimestampLine *)

Definition isTimestampLine (line : string) : bool :=
  ContainsRune line "," && ContainsRune line ":".

(** *** parseSubtitleBlock *)

Definition isEmpty (s : string) : bool :=
  match s with EmptyString => true | _ => false end.

(** The loop [for currentIndex < len(lines) && lines[currentIndex] != ""],
    [rest] being [lines[currentIndex:]]. *)
Fixpoint textLoop (rest : list string) (textLines : list string)
         (currentIndex : nat) : list string * nat :=
  match rest with
  | [] => (textLines, currentIndex)
  | l :: rest' =>
      if isEmpty l then (textLines, currentIndex)
      else textLoop rest' (textLines ++ [l]) (S currentIndex)
  end.

Definition parseSubtitleBlock (lines : list string) (startIndex : nat)
  : result (Subtitle * nat) BlockError :=
  match nth_error lines startIndex with
  | None => Err StartIndexOutOfBounds
  | Some timestampLine =>
      match parseTimestamps timestampLine with
      | Err e => Err (FailedTimestamps e)
      | Ok (startTime, endTime) =>
          let '(textLines, currentIndex) :=
            textLoop (skipn (startIndex + 1) lines) [] (startIndex + 1) in
          let text := Join textLines (String nl EmptyString) in
          Ok (mkSubtitle startTime endTime text, currentIndex)
      end
  end.

(** *** ParseFromReader *)

(** The first loop: every token of the scanner, trimmed. *)
Definition readLines (input : string) : list string + ScanError :=
  match ScanLines input with
  | inl tokens => inl (map TrimSpace tokens)
  | inr e => inr e
  end.

(** The second loop, [for i := 0; i < len(lines); i++], from the index [i]
    on.  The index grows with every turn, so the loop takes at most
    [len(lines) - i] turns; [fuel] bounds the turns and [None] says that
    it ran out. *)
Fixpoint scanLoop (fuel : nat) (lines : list string) (i : nat)
         (subtitles : list Subtitle)
  : option (list Subtitle * option ParseError) :=
  match nth_error lines i with
  | None => Some (subtitles, None)
  | Some line =>
      match fuel with
      | O => None
      | S fuel' =>
          if isEmpty line then scanLoop fuel' lines (i + 1) subtitles
          else if isTimestampLine line then
            match parseSubtitleBlock lines i with
            | Err e => Some ([], Some (FailedBlock e))
            | Ok (subtitle, nextIndex) =>
                scanLoop fuel' lines ((nextIndex - 1) + 1)
                         (subtitles ++ [subtitle])
            end
          else scanLoop fuel' lines (i + 1) subtitles
      end
  end.

Definition parseLines (lines : list string)
  : list Subtitle * option ParseError :=
  match scanLoop (List.length lines) lines 0 [] with
  | Some r => r
  | None => ([], None)
  end.

Definition ParseFromReader (input : string)
  : list Subtitle * option ParseError :=
  match readLines input with
  | inr e => ([], Some (ErrorReadingInput e))
  | inl lines => parseLines lines
  end.

(** *** formatSRTTime *)

Definition formatSRTTime (duration : Duration) : string :=
  let hours := int (Hours duration) in
  let minutes := Z.rem (int (Minutes duration)) 60 in
  let seconds := Z.rem (int (Seconds duration)) 60 in
  let milliseconds := Z.rem (Z.quot (Nanoseconds duration) 1000000) 1000 in
  Sprintf0d 2 hours ++ ":" ++ Sprintf0d 2 minutes ++ ":" ++
  Sprintf0d 2 seconds ++ "," ++ Sprintf0d 3 milliseconds.

(** *** ConvertToSRT

    [result] is the [strings.Builder]; each write appends to it. *)
Fixpoint convertLoop (i : Z) (subtitles : list Subtitle) (result : string)
  : string :=
  match subtitles with
  | [] => result
  | subtitle :: rest =>
      let result := result ++ Itoa (i + 1) in
      let result := result ++ String nl EmptyString in
      let startTime := formatSRTTime (StartTime subtitle) in
      let endTime := formatSRTTime (EndTime subtitle) in
      let result := result ++ startTime in
      let result := result ++ " --> " in
      let result := result ++ endTime in
      let result := result ++ String nl EmptyString in
      let result := result ++ Text subtitle in
      let result := result ++ String nl (String nl EmptyString) in
      convertLoop (i + 1) rest result
  end.

Definition ConvertToSRT (subtitles : list Subtitle) : string :=
  convertLoop 0 subtitles EmptyString.

End sbv.

Import GoLib sbv.

(** ** The vocabulary of the properties *)

(** The time [h] hours, [m] minutes, [s] seconds and [ms] milliseconds. *)
Definition timeOf (h m s ms : Z) : Duration :=
  h * Hour + m * Minute + s * Second + ms * Millisecond.

(** The fields are in the ranges that [parseTime] checks. *)
Definition fieldsInRange (h m s ms : Z) : Prop :=
  0 <= h <= 23 /\ 0 <= m <= 59 /\ 0 <= s <= 59 /\ 0 <= ms <= 999.

(** The text of a time: three fields between colons, the last one two
    fields around a period. *)
Definition timeString (p0 p1 s0 s1 : string) : string :=
  p0 ++ ":" ++ p1 ++ ":" ++ s0 ++ "." ++ s1.

(** A time that [parseTime] returns is made of four fields in range. *)
Definition validTime (d : Duration) : Prop :=
  exists h m s ms, fieldsInRange h m s ms /\ d = timeOf h m s ms.

(** [P] holds of every integer from 0 up to [n], [n] excluded. *)
Fixpoint allBelow (P : Z -> bool) (n : nat) : bool :=
  match n with
  | O => true
  | S k => P (Z.of_nat k) && allBelow P k
  end.

(** [Atoi] reads the field [%0wd] of [v] back as [v]. *)
Definition readsBack (w : nat) (v : Z) : bool :=
  match Atoi (Sprintf0d w v) with
  | Some u => u =? v
  | None => false
  end.

(** The separator of [strings.Join] in [parseSubtitleBlock], and the
    newline that [ConvertToSRT] writes. *)
Definition NL : string := String nl EmptyString.

(** The lines of a text block: the lines up to the first empty one. *)
Fixpoint textRun (rest : list string) : list string :=
  match rest with
  | [] => []
  | l :: rest' => if isEmpty l then [] else l :: textRun rest'
  end.

(** The text of the block that starts at the line [i]. *)
Definition blockText (lines : list string) (i : nat) : string :=
  Join (textRun (skipn (S i) lines)) NL.

(** The index after the text of the block that starts at the line [i]. *)
Definition blockEnd (lines : list string) (i : nat) : nat :=
  (S i + List.length (textRun (skipn (S i) lines)))%nat.

(** The result of the loop from the index [i] on. *)
Definition scanFrom (lines : list string) (i : nat)
           (subtitles : list Subtitle) : list Subtitle * option ParseError :=
  match scanLoop (List.length lines - i) lines i subtitles with
  | Some r => r
  | None => ([], None)
  end.

(** The states of the scan.  [reach lines i acc]: the loop of
    [ParseFromReader] arrives at the index [i], outside any block, with
    the records [acc] made so far. *)
Inductive reach (lines : list string) : nat -> list Subtitle -> Prop :=
| reach_start : reach lines 0 []
| reach_blank i acc line :
    reach lines i acc ->
    nth_error lines i = Some line -> isEmpty line = true ->
    reach lines (S i) acc
| reach_stray i acc line :
    reach lines i acc ->
    nth_error lines i = Some line ->
    isEmpty line = false -> isTimestampLine line = false ->
    reach lines (S i) acc
| reach_block i acc line subtitle nextIndex :
    reach lines i acc ->
    nth_error lines i = Some line ->
    isEmpty line = false -> isTimestampLine line = true ->
    parseSubtitleBlock lines i = Ok (subtitle, nextIndex) ->
    reach lines nextIndex (acc ++ [subtitle])%list.

(** The loop ends in one of two ways: at the end of the lines, with the
    records of the last state, or at the first block that fails, with
    no record. *)
Inductive outcome (lines : list string) (acc : list Subtitle)
  : list Subtitle * option ParseError -> Prop :=
| outcome_done j more :
    reach lines j (acc ++ more)%list -> nth_error lines j = None ->
    outcome lines acc ((acc ++ more)%list, None)
| outcome_failed j acc' line e :
    reach lines j acc' -> nth_error lines j = Some line ->
    isEmpty line = false -> isTimestampLine line = true ->
    parseSubtitleBlock lines j = Err e ->
    outcome lines acc ([], Some (FailedBlock e)).

(** [r] is the record of the block whose timestamp line is the line
    [i]. *)
Definition isBlockAt (lines : list string) (i : nat) (r : Subtitle) : Prop :=
  exists ts s e,
    nth_error lines i = Some ts /\ isTimestampLine ts = true /\
    parseTimestamps ts = Ok (s, e) /\
    r = mkSubtitle s e (blockText lines i).

(** One block of SRT text, as the specification words it: the sequence
    number, the line of the two times, the text, and a blank line. *)
Definition srtBlock (n : Z) (s : Subtitle) : string :=
  Itoa n ++ NL ++
  formatSRTTime (StartTime s) ++ " --> " ++ formatSRTTime (EndTime s) ++ NL ++
  Text s ++ NL ++ NL.

(** The records with their sequence numbers, from [n] on. *)
Fixpoint number (n : Z) (subtitles : list Subtitle) : list (Z * Subtitle) :=
  match subtitles with
  | [] => []
  | s :: rest => (n, s) :: number (n + 1) rest
  end.

(** The blocks written one after the other. *)
Fixpoint flatten (blocks : list string) : string :=
  match blocks with
  | [] => EmptyString
  | b :: rest => b ++ flatten rest
  end.

(** The block of each numbered record. *)
Definition blocksOf (numbered : list (Z * Subtitle)) : list string :=
  map (fun p => srtBlock (fst p) (snd p)) numbered.

(** The claim C2 as the specification words it: the integer-parse step
    fails on every field that begins with a minus sign. *)
Definition leading_minus_fails_to_parse : Prop :=
  forall t : string, Atoi (String "-" t) = None.

(** The four numbers of an SRT time read back: the text before the comma
    and the text after it are the [H:MM:SS] and the milliseconds of
    [parseTime], which reads the four fields and adds them up. *)
Definition reparseSRTTime (t : string) : result Duration TimeError :=
  match Split t "," with
  | [hms; mmm] => parseTime (hms ++ "." ++ mmm)%string
  | _ => Err (InvalidTimeFormat t)
  end.


(** What an error of [parseTime] says of the text [t]: the check that
    failed and the field or the value it failed on. *)
Definition timeFault (t : string) (e : TimeError) : Prop :=
  match e with
  | InvalidTimeFormat s => s = t /\ List.length (Split t ":") <> 3%nat
  | InvalidHours f =>
      exists p1 p2, Split t ":" = [f; p1; p2] /\ Atoi f = None
  | HoursOutOfRange v =>
      exists f p1 p2,
        Split t ":" = [f; p1; p2] /\ Atoi f = Some v /\ ~ 0 <= v <= 23
  | InvalidMinutes f =>
      exists p0 p2, Split t ":" = [p0; f; p2] /\ Atoi f = None
  | MinutesOutOfRange v =>
      exists p0 f p2,
        Split t ":" = [p0; f; p2] /\ Atoi f = Some v /\ ~ 0 <= v <= 59
  | InvalidSecondsFormat f =>
      exists p0 p1,
        Split t ":" = [p0; p1; f] /\ List.length (Split f ".") <> 2%nat
  | InvalidSeconds f =>
      exists p0 p1 p2 s1,
        Split t ":" = [p0; p1; p2] /\ Split p2 "." = [f; s1] /\
        Atoi f = None
  | SecondsOutOfRange v =>
      exists p0 p1 p2 f s1,
        Split t ":" = [p0; p1; p2] /\ Split p2 "." = [f; s1] /\
        Atoi f = Some v /\ ~ 0 <= v <= 59
  | InvalidMilliseconds f =>
      exists p0 p1 p2 s0,
        Split t ":" = [p0; p1; p2] /\ Split p2 "." = [s0; f] /\
        Atoi f = None
  | MillisecondsOutOfRange v =>
      exists p0 p1 p2 s0 f,
        Split t ":" = [p0; p1; p2] /\ Split p2 "." = [s0; f] /\
        Atoi f = Some v /\ ~ 0 <= v <= 999
  end.

(** The same for a timestamp line: the number of commas, or the fault of
    its start or of its end. *)
Definition timestampsFault (l : string) (e : TimestampsError) : Prop :=
  match e with
  | InvalidTimestampFormat s => s = l /\ List.length (Split l ",") <> 2%nat
  | FailedStartTime e' =>
      exists part0 part1,
        Split l "," = [part0; part1] /\ timeFault (TrimSpace part0) e'
  | FailedEndTime e' =>
      exists part0 part1,
        Split l "," = [part0; part1] /\ timeFault (TrimSpace part1) e'
  end.

(** What is wrong with a field, as the spec has it: its text is no
    integer, or the integer is outside the range of the field. *)
Definition badField (f : string) (lo hi : Z) : Prop :=
  match Atoi f with
  | None => True
  | Some v => ~ lo <= v <= hi
  end.

(** A time text has one of the faults the spec lists: not three parts
    around the colons, not two parts around the period of the last one, or
    a bad field. *)
Definition timeHasFault (t : string) : Prop :=
  List.length (Split t ":") <> 3%nat \/
  exists p0 p1 p2,
    Split t ":" = [p0; p1; p2] /\
    (badField p0 0 23 \/ badField p1 0 59 \/
     List.length (Split p2 ".") <> 2%nat \/
     exists s0 s1,
       Split p2 "." = [s0; s1] /\
       (badField s0 0 59 \/ badField s1 0 999)).

(** A timestamp line is malformed: not two parts around the commas, or a
    fault in one of the two times. *)
Definition lineHasFault (l : string) : Prop :=
  List.length (Split l ",") <> 2%nat \/
  exists part0 part1,
    Split l "," = [part0; part1] /\
    (timeHasFault (TrimSpace part0) \/ timeHasFault (TrimSpace part1)).

(** The claim C4 as it is worded, for the part on the offending line: the
    error of a parse that a malformed timestamp line aborts tells which
    line it was, by its text or by its place, so two parses with the same
    error were aborted by the same line or at the same place. *)
Definition error_identifies_the_line : Prop :=
  forall input1 input2 lines1 lines2 i1 i2 acc1 acc2 l1 l2 err,
    readLines input1 = inl lines1 -> readLines input2 = inl lines2 ->
    reach lines1 i1 acc1 -> reach lines2 i2 acc2 ->
    nth_error lines1 i1 = Some l1 -> nth_error lines2 i2 = Some l2 ->
    isTimestampLine l1 = true -> isTimestampLine l2 = true ->
    lineHasFault l1 -> lineHasFault l2 ->
    ParseFromReader input1 = ([], Some err) ->
    ParseFromReader input2 = ([], Some err) ->
    l1 = l2 \/ i1 = i2.

(** The claim C8 as it is worded, for its last part: an input whose lines
    are all stray lines (not empty once trimmed, without a comma or
    without a colon) gives no record and no error. *)
Definition stray_lines_cause_no_error : Prop :=
  forall input,
    Forall (fun l => TrimSpace l <> ""%string /\
                     isTimestampLine (TrimSpace l) = false)
           (Split input nl) ->
    ParseFromReader input = ([], None).

(** The claim C10 as it is worded: the parse succeeds, with a record of
    empty text, on every input that has a valid timestamp line followed
    by an empty line or by the end of the input. *)
Definition empty_block_always_parses : Prop :=
  forall input lines i ts s e,
    readLines input = inl lines ->
    nth_error lines i = Some ts -> isTimestampLine ts = true ->
    parseTimestamps ts = Ok (s, e) ->
    nth_error lines (S i) = None \/ nth_error lines (S i) = Some ""%string ->
    exists subs,
      ParseFromReader input = (subs, None) /\
      In (mkSubtitle s e "") subs.

(** No line from [from] up to [to] (left out) has a comma and a colon:
    the scan starts no block there. *)
Definition noTimestampLine (lines : list string) (from to : nat) : Prop :=
  forall k l,
    (from <= k < to)%nat -> nth_error lines k = Some l ->
    isTimestampLine l = false.

(** The blocks that start at the lines [starts] are the blocks between the
    lines [from] and [to]: each one starts at or after the end of the one
    before, so no line is in two of them, and no line before, between or
    after them has a comma and a colon, so none is left out. *)
Fixpoint blocksBetween (lines : list string) (from : nat) (starts : list nat)
         (to : nat) : Prop :=
  match starts with
  | [] => (from <= to)%nat /\ noTimestampLine lines from to
  | j :: rest =>
      (from <= j)%nat /\ noTimestampLine lines from j /\
      blocksBetween lines (blockEnd lines j) rest to
  end.

(** [s] is [w] decimal digits. *)
Fixpoint digitsOfWidth (w : nat) (s : string) : bool :=
  match w, s with
  | O, EmptyString => true
  | S w', String c t => isDigit c && digitsOfWidth w' t
  | _, _ => false
  end.

(** [s] has the shape [HH:MM:SS,mmm] of an SRT time: two digits, a colon,
    two digits, a colon, two digits, a comma and three digits. *)
Definition isSRTTime (s : string) : bool :=
  match s with
  | String h1 (String h2 (String c1 (String m1 (String m2 (String c2
      (String s1 (String s2 (String c3 mmm)))))))) =>
      isDigit h1 && isDigit h2 && Ascii.eqb c1 ":" &&
      isDigit m1 && isDigit m2 && Ascii.eqb c2 ":" &&
      isDigit s1 && isDigit s2 && Ascii.eqb c3 "," &&
      digitsOfWidth 3 mmm
  | _ => false
  end.

(** [s] written [2 ^ n] times. *)
Fixpoint doubled (n : nat) (s : string) : string :=
  match n with
  | O => s
  | S k => doubled k (s ++ s)
  end.

(** The text with a carriage return put before every newline. *)
Fixpoint toCRLF (s : string) : string :=
  match s with
  | EmptyString => EmptyString
  | String c t =>
      if Ascii.eqb c nl then String cr (String nl (toCRLF t))
      else String c (toCRLF t)
  end.

(** A carriage return at the end of every part but the last one. *)
Fixpoint addCR (parts : list string) : list string :=
  match parts with
  | [] => []
  | [x] => [x]
  | x :: rest => (x ++ String cr EmptyString) :: addCR rest
  end.

(** The tokens of [ScanLines] among the parts between the newlines: the
    last part is no token when it is empty. *)
Definition tokensOf (parts : list string) : list string :=
  match List.rev parts with
  | EmptyString :: r => List.rev r
  | _ => parts
  end.

(** ** Strings: separators and fields *)

Section Fields.

Lemma ContainsRune_app (a b : string) (c : ascii) :
  ContainsRune (a ++ b) c = ContainsRune a c || ContainsRune b c.
Proof.
  induction a as [|x a IH]; simpl; [reflexivity|].
  destruct (Ascii.eqb x c); [reflexivity | exact IH].
Qed.

Lemma ContainsRune_cons (x : ascii) (t : string) (c : ascii) :
  ContainsRune (String x t) c =
  if Ascii.eqb x c then true else ContainsRune t c.
Proof. reflexivity. Qed.

(** A string without the separator is one part. *)
Lemma Split_none (a : string) (sep : ascii) :
  ContainsRune a sep = false -> Split a sep = [a].
Proof.
  induction a as [|x a IH]; simpl; [reflexivity|].
  destruct (Ascii.eqb x sep); [discriminate|].
  intros H. rewrite (IH H). reflexivity.
Qed.

(** The first part ends at the first separator. *)
Lemma Split_first (a b : string) (sep : ascii) :
  ContainsRune a sep = false ->
  Split (a ++ String sep b) sep = a :: Split b sep.
Proof.
  induction a as [|x a IH]; simpl.
  - rewrite Ascii.eqb_refl. reflexivity.
  - destruct (Ascii.eqb x sep); [discriminate|].
    intros H. rewrite (IH H). reflexivity.
Qed.

Lemma digitsLoop_no_rune (c : ascii) (s : string) :
  isDigit c = false ->
  forall n v, digitsLoop s n = Some v -> ContainsRune s c = false.
Proof.
  intros Hc. induction s as [|x s IH]; simpl; intros n v H; [reflexivity|].
  destruct (isDigit x) eqn:Hx; [|discriminate].
  destruct (Ascii.eqb x c) eqn:E.
  - apply Ascii.eqb_eq in E. congruence.
  - eapply IH; eassumption.
Qed.

(** What [Atoi] accepts holds signs and digits only. *)
Lemma Atoi_no_rune (c : ascii) (s : string) (v : Z) :
  isDigit c = false -> c <> "-"%char -> c <> "+"%char ->
  Atoi s = Some v -> ContainsRune s c = false.
Proof.
  intros Hd Hm Hp. unfold Atoi. destruct s as [|s0 t]; [discriminate|].
  destruct (Ascii.eqb s0 "-") eqn:E1; simpl orb; cbv iota.
  - apply Ascii.eqb_eq in E1. subst s0.
    destruct t as [|t0 t']; [discriminate|].
    destruct (digitsLoop (String t0 t') 0) as [n|] eqn:D; [|discriminate].
    intros _. rewrite ContainsRune_cons.
    destruct (Ascii.eqb "-" c) eqn:E; [apply Ascii.eqb_eq in E; congruence|].
    eapply digitsLoop_no_rune; eassumption.
  - destruct (Ascii.eqb s0 "+") eqn:E2.
    + apply Ascii.eqb_eq in E2. subst s0.
      destruct t as [|t0 t']; [discriminate|].
      destruct (digitsLoop (String t0 t') 0) as [n|] eqn:D; [|discriminate].
      intros _. rewrite ContainsRune_cons.
      destruct (Ascii.eqb "+" c) eqn:E; [apply Ascii.eqb_eq in E; congruence|].
      eapply digitsLoop_no_rune; eassumption.
    + destruct (digitsLoop (String s0 t) 0) as [n|] eqn:D; [|discriminate].
      intros _. eapply digitsLoop_no_rune; eassumption.
Qed.

Lemma Atoi_no_colon s v : Atoi s = Some v -> ContainsRune s ":" = false.
Proof. apply Atoi_no_rune; [reflexivity | discriminate | discriminate]. Qed.

Lemma Atoi_no_period s v : Atoi s = Some v -> ContainsRune s "." = false.
Proof. apply Atoi_no_rune; [reflexivity | discriminate | discriminate]. Qed.

Lemma Atoi_no_comma s v : Atoi s = Some v -> ContainsRune s "," = false.
Proof. apply Atoi_no_rune; [reflexivity | discriminate | discriminate]. Qed.

(** The digits of a negative literal: [Atoi] gives the negated value. *)
Lemma Atoi_minus (ds : string) (v : Z) :
  ds <> EmptyString -> digitsLoop ds 0 = Some v -> v <= 2 ^ 63 ->
  0 <= v -> Atoi (String "-" ds) = Some (- v).
Proof.
  intros Hne Hd Hv H0. unfold Atoi.
  change (Ascii.eqb "-" "-") with true. simpl orb. cbv iota.
  destruct ds as [|d ds']; [congruence|].
  rewrite Hd.
  replace ((minInt <=? - v) && (- v <=? maxInt)) with true; [reflexivity|].
  symmetry. apply andb_true_iff. unfold minInt, maxInt.
  split; apply Z.leb_le; lia.
Qed.

End Fields.

(** ** parseTime on its four fields *)

Section ParseTime.

Lemma wrap64_small (z : Z) : - 2 ^ 63 <= z < 2 ^ 63 -> wrap64 z = z.
Proof.
  intros H. unfold wrap64. rewrite Z.mod_small; lia.
Qed.

(** The sum of [parseTime] does not wrap around on fields in range. *)
Lemma total_no_wrap (h m s ms : Z) :
  fieldsInRange h m s ms ->
  add64 (add64 (add64 (mul64 h Hour) (mul64 m Minute)) (mul64 s Second))
        (mul64 ms Millisecond) = timeOf h m s ms.
Proof.
  unfold fieldsInRange, timeOf, add64, mul64.
  unfold Hour, Minute, Second, Millisecond, Microsecond, Nanosecond.
  intros (Hh & Hm & Hs & Hms).
  rewrite (wrap64_small (h * _)) by lia.
  rewrite (wrap64_small (m * _)) by lia.
  rewrite (wrap64_small (s * _)) by lia.
  rewrite (wrap64_small (ms * _)) by lia.
  rewrite (wrap64_small (h * _ + m * _)) by lia.
  rewrite (wrap64_small (h * _ + m * _ + s * _)) by lia.
  rewrite wrap64_small by lia. reflexivity.
Qed.

Lemma outOfRange_false (v lo hi : Z) :
  outOfRange v lo hi = false <-> lo <= v <= hi.
Proof.
  unfold outOfRange. rewrite orb_false_iff, Z.ltb_ge, Z.gtb_ltb, Z.ltb_ge.
  tauto.
Qed.

Lemma outOfRange_neg (v hi : Z) : v < 0 -> outOfRange v 0 hi = true.
Proof.
  intros H. unfold outOfRange. apply orb_true_iff. left.
  apply Z.ltb_lt. exact H.
Qed.

Lemma Split_timeString (p0 p1 p2 : string) :
  ContainsRune p0 ":" = false -> ContainsRune p1 ":" = false ->
  ContainsRune p2 ":" = false ->
  Split (p0 ++ ":" ++ p1 ++ ":" ++ p2) ":" = [p0; p1; p2].
Proof.
  intros H0 H1 H2.
  change (p0 ++ ":" ++ p1 ++ ":" ++ p2)
    with (p0 ++ String ":" (p1 ++ String ":" p2)).
  rewrite (Split_first _ _ _ H0), (Split_first _ _ _ H1), (Split_none _ _ H2).
  reflexivity.
Qed.

Lemma Split_seconds (s0 s1 : string) :
  ContainsRune s0 "." = false -> ContainsRune s1 "." = false ->
  Split (s0 ++ "." ++ s1) "." = [s0; s1].
Proof.
  intros H0 H1. change (s0 ++ "." ++ s1) with (s0 ++ String "." s1).
  rewrite (Split_first _ _ _ H0), (Split_none _ _ H1). reflexivity.
Qed.

Lemma no_colon_seconds (s0 s1 : string) :
  ContainsRune s0 ":" = false -> ContainsRune s1 ":" = false ->
  ContainsRune (s0 ++ "." ++ s1) ":" = false.
Proof.
  intros H0 H1. rewrite !ContainsRune_app, H0, H1. reflexivity.
Qed.

(** Four fields that [Atoi] reads, in range: the time they denote. *)
Lemma parseTime_fields (p0 p1 s0 s1 : string) (h m s ms : Z) :
  Atoi p0 = Some h -> Atoi p1 = Some m ->
  Atoi s0 = Some s -> Atoi s1 = Some ms ->
  fieldsInRange h m s ms ->
  parseTime (timeString p0 p1 s0 s1) = Ok (timeOf h m s ms).
Proof.
  intros A0 A1 A2 A3 R. pose proof R as (Hh & Hm & Hs & Hms).
  unfold parseTime, timeString.
  rewrite Split_timeString;
    eauto using Atoi_no_colon, no_colon_seconds.
  rewrite A0, (proj2 (outOfRange_false h 0 23) Hh).
  rewrite A1, (proj2 (outOfRange_false m 0 59) Hm).
  rewrite Split_seconds; eauto using Atoi_no_period.
  rewrite A2, (proj2 (outOfRange_false s 0 59) Hs).
  rewrite A3, (proj2 (outOfRange_false ms 0 999) Hms).
  rewrite total_no_wrap by exact R. reflexivity.
Qed.

(** With three fields in range in front, the result is decided by the
    range check of the milliseconds. *)
Lemma parseTime_last_field (p0 p1 s0 s1 : string) (h m s ms : Z) :
  Atoi p0 = Some h -> Atoi p1 = Some m -> Atoi s0 = Some s ->
  Atoi s1 = Some ms ->
  0 <= h <= 23 -> 0 <= m <= 59 -> 0 <= s <= 59 ->
  parseTime (timeString p0 p1 s0 s1) =
  if outOfRange ms 0 999 then Err (MillisecondsOutOfRange ms)
  else Ok (timeOf h m s ms).
Proof.
  intros A0 A1 A2 A3 Hh Hm Hs.
  destruct (outOfRange ms 0 999) eqn:O.
  - unfold parseTime, timeString.
    rewrite Split_timeString;
      eauto using Atoi_no_colon, no_colon_seconds.
    rewrite A0, (proj2 (outOfRange_false h 0 23) Hh).
    rewrite A1, (proj2 (outOfRange_false m 0 59) Hm).
    rewrite Split_seconds; eauto using Atoi_no_period.
    rewrite A2, (proj2 (outOfRange_false s 0 59) Hs).
    rewrite A3, O. reflexivity.
  - apply outOfRange_false in O.
    apply parseTime_fields; try assumption.
    unfold fieldsInRange. tauto.
Qed.

Lemma parseTime_valid (timeStr : string) (d : Duration) :
  parseTime timeStr = Ok d -> validTime d.
Proof.
  unfold parseTime.
  destruct (Split timeStr ":") as [|p0 [|p1 [|p2 [|? ?]]]]; try discriminate.
  destruct (Atoi p0) as [h|]; [|discriminate].
  destruct (outOfRange h 0 23) eqn:Rh; [discriminate|].
  destruct (Atoi p1) as [m|]; [|discriminate].
  destruct (outOfRange m 0 59) eqn:Rm; [discriminate|].
  destruct (Split p2 ".") as [|s0 [|s1 [|? ?]]]; try discriminate.
  destruct (Atoi s0) as [s|]; [|discriminate].
  destruct (outOfRange s 0 59) eqn:Rs; [discriminate|].
  destruct (Atoi s1) as [ms|]; [|discriminate].
  destruct (outOfRange ms 0 999) eqn:Rms; [discriminate|].
  apply outOfRange_false in Rh, Rm, Rs, Rms.
  assert (R : fieldsInRange h m s ms) by (unfold fieldsInRange; tauto).
  rewrite (total_no_wrap _ _ _ _ R). intros E. injection E as <-.
  exists h, m, s, ms. split; [exact R | reflexivity].
Qed.

End ParseTime.

(** ** formatSRTTime on the times of the parser *)

Section FormatTime.

Lemma allBelow_spec (P : Z -> bool) (n : nat) :
  allBelow P n = true -> forall v, 0 <= v < Z.of_nat n -> P v = true.
Proof.
  induction n as [|k IH]; simpl; intros H v Hv; [lia|].
  apply andb_true_iff in H. destruct H as [Hk Hr].
  destruct (Z.eq_dec v (Z.of_nat k)) as [->|Hne]; [exact Hk|].
  apply IH; [exact Hr | lia].
Qed.

Lemma readsBack_spec (w : nat) (v : Z) :
  readsBack w v = true -> Atoi (Sprintf0d w v) = Some v.
Proof.
  unfold readsBack. destruct (Atoi (Sprintf0d w v)) as [u|]; [|discriminate].
  intros H. apply Z.eqb_eq in H. congruence.
Qed.

Lemma Atoi_Sprintf02d (v : Z) :
  0 <= v <= 59 -> Atoi (Sprintf0d 2 v) = Some v.
Proof.
  intros H. apply readsBack_spec.
  apply (allBelow_spec (readsBack 2) 60); [vm_compute; reflexivity | lia].
Qed.

Lemma Atoi_Sprintf03d (v : Z) :
  0 <= v <= 999 -> Atoi (Sprintf0d 3 v) = Some v.
Proof.
  intros H. apply readsBack_spec.
  apply (allBelow_spec (readsBack 3) 1000); [vm_compute; reflexivity | lia].
Qed.

(** With exact rationals, [int] of the units of a duration is the
    quotient of the integer division. *)
Lemma int_asUnits (d unit : Duration) :
  0 < unit -> int (asUnits d unit) = Z.quot d unit.
Proof.
  intros H. destruct unit as [|p|p]; try lia.
  unfold int, asUnits, Qdiv, Qplus, Qmult, Qinv, inject_Z.
  cbn [Qnum Qden]. rewrite !Z.mul_1_r, !Pos.mul_1_l.
  f_equal. rewrite Z.mul_comm. symmetry. apply Z.quot_rem'.
Qed.

(** The four numbers that [formatSRTTime] prints are the fields of the
    time. *)
Lemma quot_fields (h m s ms : Z) :
  fieldsInRange h m s ms ->
  let d := timeOf h m s ms in
  Z.quot d Hour = h /\ Z.rem (Z.quot d Minute) 60 = m /\
  Z.rem (Z.quot d Second) 60 = s /\ Z.rem (Z.quot d 1000000) 1000 = ms.
Proof.
  intros (Hh & Hm & Hs & Hms) d. subst d. unfold timeOf.
  unfold Hour, Minute, Second, Millisecond, Microsecond, Nanosecond.
  assert (Q1 : Z.quot (h * (60 * (60 * (1000 * (1000 * (1000 * 1))))) +
                       m * (60 * (1000 * (1000 * (1000 * 1)))) +
                       s * (1000 * (1000 * (1000 * 1))) +
                       ms * (1000 * (1000 * 1)))
                      (60 * (60 * (1000 * (1000 * (1000 * 1))))) = h).
  { rewrite Z.quot_div_nonneg by lia. symmetry.
    apply Z.div_unique with (r := m * 60000000000 + s * 1000000000 + ms * 1000000); lia. }
  assert (Q2 : Z.quot (h * (60 * (60 * (1000 * (1000 * (1000 * 1))))) +
                       m * (60 * (1000 * (1000 * (1000 * 1)))) +
                       s * (1000 * (1000 * (1000 * 1))) +
                       ms * (1000 * (1000 * 1)))
                      (60 * (1000 * (1000 * (1000 * 1)))) = h * 60 + m).
  { rewrite Z.quot_div_nonneg by lia. symmetry.
    apply Z.div_unique with (r := s * 1000000000 + ms * 1000000); lia. }
  assert (Q3 : Z.quot (h * (60 * (60 * (1000 * (1000 * (1000 * 1))))) +
                       m * (60 * (1000 * (1000 * (1000 * 1)))) +
                       s * (1000 * (1000 * (1000 * 1))) +
                       ms * (1000 * (1000 * 1)))
                      (1000 * (1000 * (1000 * 1))) = (h * 60 + m) * 60 + s).
  { rewrite Z.quot_div_nonneg by lia. symmetry.
    apply Z.div_unique with (r := ms * 1000000); lia. }
  assert (Q4 : Z.quot (h * (60 * (60 * (1000 * (1000 * (1000 * 1))))) +
                       m * (60 * (1000 * (1000 * (1000 * 1)))) +
                       s * (1000 * (1000 * (1000 * 1))) +
                       ms * (1000 * (1000 * 1)))
                      1000000 = ((h * 60 + m) * 60 + s) * 1000 + ms).
  { rewrite Z.quot_div_nonneg by lia. symmetry.
    apply Z.div_unique with (r := 0); lia. }
  rewrite Q1, Q2, Q3, Q4.
  rewrite !Z.rem_mod_nonneg by lia.
  repeat split.
  - symmetry. apply Z.mod_unique with (q := h); lia.
  - symmetry. apply Z.mod_unique with (q := h * 60 + m); lia.
  - symmetry. apply Z.mod_unique with (q := (h * 60 + m) * 60 + s); lia.
Qed.

Lemma formatSRTTime_fields (h m s ms : Z) :
  fieldsInRange h m s ms ->
  formatSRTTime (timeOf h m s ms) =
  Sprintf0d 2 h ++ ":" ++ Sprintf0d 2 m ++ ":" ++ Sprintf0d 2 s ++ "," ++
  Sprintf0d 3 ms.
Proof.
  intros R. destruct (quot_fields h m s ms R) as (Q1 & Q2 & Q3 & Q4).
  unfold formatSRTTime, Hours, Minutes, Seconds, Nanoseconds.
  rewrite !int_asUnits by reflexivity.
  rewrite Q1, Q2, Q3, Q4. reflexivity.
Qed.

End FormatTime.

(** ** The scan of ParseFromReader *)

Section Scan.

Local Open Scope list_scope.

Lemma textLoop_spec (rest : list string) :
  forall textLines k,
    textLoop rest textLines k =
    ((textLines ++ textRun rest)%list, (k + List.length (textRun rest))%nat).
Proof.
  induction rest as [|l rest IH]; intros acc k; simpl.
  - rewrite app_nil_r, Nat.add_0_r. reflexivity.
  - destruct (isEmpty l).
    + rewrite app_nil_r, Nat.add_0_r. reflexivity.
    + rewrite IH, <- app_assoc. simpl. f_equal. lia.
Qed.

Lemma parseSubtitleBlock_spec (lines : list string) (i : nat) :
  parseSubtitleBlock lines i =
  match nth_error lines i with
  | None => Err StartIndexOutOfBounds
  | Some ts =>
      match parseTimestamps ts with
      | Err e => Err (FailedTimestamps e)
      | Ok (s, e) => Ok (mkSubtitle s e (blockText lines i), blockEnd lines i)
      end
  end.
Proof.
  unfold parseSubtitleBlock, blockText, blockEnd.
  destruct (nth_error lines i) as [ts|]; [|reflexivity].
  destruct (parseTimestamps ts) as [[s e]|err]; [|reflexivity].
  rewrite Nat.add_1_r, textLoop_spec. reflexivity.
Qed.

Lemma textRun_length (rest : list string) :
  (List.length (textRun rest) <= List.length rest)%nat.
Proof.
  induction rest as [|l rest IH]; simpl; [lia|].
  destruct (isEmpty l); simpl; lia.
Qed.

Lemma blockEnd_bounds (lines : list string) (i : nat) :
  (i < List.length lines)%nat ->
  (i < blockEnd lines i <= List.length lines)%nat.
Proof.
  intros H. unfold blockEnd.
  pose proof (textRun_length (skipn (S i) lines)) as L.
  rewrite length_skipn in L. lia.
Qed.

Lemma parseSubtitleBlock_next (lines : list string) (i : nat)
      (sub : Subtitle) (n : nat) :
  parseSubtitleBlock lines i = Ok (sub, n) ->
  (i < n <= List.length lines)%nat.
Proof.
  rewrite parseSubtitleBlock_spec.
  destruct (nth_error lines i) as [ts|] eqn:E; [|discriminate].
  destruct (parseTimestamps ts) as [[s e]|err]; [|discriminate].
  intros H. injection H as _ <-.
  apply blockEnd_bounds. apply nth_error_Some. congruence.
Qed.

(** Fuel: [len(lines) - i] turns are enough, and more change nothing. *)
Lemma scanLoop_fuel (lines : list string) (f1 : nat) :
  forall f2 i subtitles,
    (List.length lines - i <= f1)%nat -> (List.length lines - i <= f2)%nat ->
    scanLoop f1 lines i subtitles = scanLoop f2 lines i subtitles.
Proof.
  induction f1 as [|f1 IH]; intros f2 i acc H1 H2.
  - simpl. destruct (nth_error lines i) eqn:E.
    + assert (i < List.length lines)%nat by (apply nth_error_Some; congruence).
      lia.
    + destruct f2; simpl; rewrite E; reflexivity.
  - simpl. destruct (nth_error lines i) as [line|] eqn:E.
    + assert (Hi : (i < List.length lines)%nat)
        by (apply nth_error_Some; congruence).
      destruct f2 as [|f2]; [lia|]. simpl. rewrite E.
      destruct (isEmpty line); [apply IH; lia|].
      destruct (isTimestampLine line); [|apply IH; lia].
      destruct (parseSubtitleBlock lines i) as [[sub n]|err] eqn:B;
        [|reflexivity].
      apply parseSubtitleBlock_next in B. apply IH; lia.
    + destruct f2; simpl; rewrite E; reflexivity.
Qed.

Lemma scanLoop_total (lines : list string) (f : nat) :
  forall i subtitles,
    (List.length lines - i <= f)%nat ->
    exists r, scanLoop f lines i subtitles = Some r.
Proof.
  induction f as [|f IH]; intros i acc H; simpl.
  - destruct (nth_error lines i) eqn:E; [|eauto].
    assert (i < List.length lines)%nat by (apply nth_error_Some; congruence).
    lia.
  - destruct (nth_error lines i) as [line|] eqn:E; [|eauto].
    destruct (isEmpty line); [apply IH; lia|].
    destruct (isTimestampLine line); [|apply IH; lia].
    destruct (parseSubtitleBlock lines i) as [[sub n]|err] eqn:B; [|eauto].
    apply parseSubtitleBlock_next in B. apply IH; lia.
Qed.

(** The fuel that [parseLines] gives is enough: its result is a result of
    the loop. *)
Lemma parseLines_total (lines : list string) :
  scanLoop (List.length lines) lines 0 [] = Some (parseLines lines).
Proof.
  unfold parseLines.
  destruct (scanLoop_total lines (List.length lines) 0 [] ltac:(lia))
    as [r E].
  rewrite E. reflexivity.
Qed.

Lemma parseLines_scanFrom (lines : list string) :
  parseLines lines = scanFrom lines 0 [].
Proof. unfold parseLines, scanFrom. rewrite Nat.sub_0_r. reflexivity. Qed.

Lemma scanFrom_done (lines : list string) (i : nat) (acc : list Subtitle) :
  nth_error lines i = None -> scanFrom lines i acc = (acc, None).
Proof.
  intros E. unfold scanFrom.
  destruct (List.length lines - i)%nat; simpl; rewrite E; reflexivity.
Qed.

Lemma scanFrom_unfold (lines : list string) (i : nat) (acc : list Subtitle)
      (line : string) :
  nth_error lines i = Some line ->
  scanFrom lines i acc =
  if isEmpty line then scanFrom lines (S i) acc
  else if isTimestampLine line then
    match parseSubtitleBlock lines i with
    | Err e => ([], Some (FailedBlock e))
    | Ok (subtitle, nextIndex) =>
        scanFrom lines nextIndex (acc ++ [subtitle])%list
    end
  else scanFrom lines (S i) acc.
Proof.
  intros E.
  assert (Hi : (i < List.length lines)%nat)
    by (apply nth_error_Some; congruence).
  unfold scanFrom at 1.
  destruct (List.length lines - i)%nat as [|f] eqn:F; [lia|].
  simpl. rewrite E, Nat.add_1_r.
  assert (S1 : scanLoop f lines (S i) acc =
               scanLoop (List.length lines - S i) lines (S i) acc)
    by (apply scanLoop_fuel; lia).
  destruct (isEmpty line); [unfold scanFrom; rewrite S1; reflexivity|].
  destruct (isTimestampLine line);
    [|unfold scanFrom; rewrite S1; reflexivity].
  destruct (parseSubtitleBlock lines i) as [[sub n]|err] eqn:B;
    [|reflexivity].
  apply parseSubtitleBlock_next in B.
  replace (n - 1 + 1)%nat with n by lia.
  unfold scanFrom. rewrite (scanLoop_fuel lines f (List.length lines - n));
    [reflexivity | lia | lia].
Qed.

(** From a state of the scan the loop gives the result of the whole
    parse. *)
Lemma reach_scanFrom (lines : list string) (i : nat) (acc : list Subtitle) :
  reach lines i acc -> parseLines lines = scanFrom lines i acc.
Proof.
  induction 1 as [|i acc line R IH E B|i acc line R IH E B T
                  |i acc line sub n R IH E B T P].
  - apply parseLines_scanFrom.
  - rewrite IH, (scanFrom_unfold _ _ _ _ E), B. reflexivity.
  - rewrite IH, (scanFrom_unfold _ _ _ _ E), B, T. reflexivity.
  - rewrite IH, (scanFrom_unfold _ _ _ _ E), B, T, P. reflexivity.
Qed.

Lemma scanFrom_outcome (lines : list string) (k : nat) :
  forall i acc,
    (List.length lines - i <= k)%nat ->
    reach lines i acc -> outcome lines acc (scanFrom lines i acc).
Proof.
  induction k as [|k IH]; intros i acc Hk R.
  - assert (E : nth_error lines i = None) by (apply nth_error_None; lia).
    rewrite (scanFrom_done _ _ _ E).
    rewrite <- (app_nil_r acc) at 2. apply outcome_done with (j := i).
    + rewrite app_nil_r. exact R.
    + exact E.
  - destruct (nth_error lines i) as [line|] eqn:E.
    + assert (Hi : (i < List.length lines)%nat)
        by (apply nth_error_Some; congruence).
      rewrite (scanFrom_unfold _ _ _ _ E).
      destruct (isEmpty line) eqn:B.
      { apply IH; [lia | eapply reach_blank; eassumption]. }
      destruct (isTimestampLine line) eqn:T.
      2:{ apply IH; [lia | eapply reach_stray; eassumption]. }
      destruct (parseSubtitleBlock lines i) as [[sub n]|err] eqn:P.
      * pose proof (parseSubtitleBlock_next _ _ _ _ P) as Hn.
        assert (R' : reach lines n (acc ++ [sub]))
          by (eapply reach_block; eassumption).
        pose proof (IH n (acc ++ [sub])%list ltac:(lia) R') as O.
        inversion O as [j more Rj Ej Eq|j acc' line' e Rj Ej Bj Tj Pj Eq].
        -- rewrite <- app_assoc. apply outcome_done with (j := j).
           ++ rewrite app_assoc. exact Rj.
           ++ exact Ej.
        -- eapply outcome_failed; eassumption.
      * eapply outcome_failed; eassumption.
    + rewrite (scanFrom_done _ _ _ E).
      rewrite <- (app_nil_r acc) at 2. apply outcome_done with (j := i).
      * rewrite app_nil_r. exact R.
      * exact E.
Qed.

Lemma parseLines_outcome (lines : list string) :
  outcome lines [] (parseLines lines).
Proof.
  rewrite parseLines_scanFrom.
  apply (scanFrom_outcome lines (List.length lines)); [lia | constructor].
Qed.

(** A parse that succeeds ends in a state that holds its records. *)
Lemma parseLines_ok_reach (lines : list string) (subs : list Subtitle) :
  parseLines lines = (subs, None) -> exists j, reach lines j subs.
Proof.
  intros H. pose proof (parseLines_outcome lines) as O. rewrite H in O.
  inversion O as [j more Rj Ej Eq|]; subst. exists j. exact Rj.
Qed.

(** The records of a later result extend the records of a state. *)
Lemma reach_extends (lines : list string) (i : nat)
      (acc subs : list Subtitle) :
  reach lines i acc -> parseLines lines = (subs, None) ->
  exists more, subs = (acc ++ more)%list.
Proof.
  intros R H. rewrite (reach_scanFrom _ _ _ R) in H.
  pose proof (scanFrom_outcome lines (List.length lines) i acc
                               ltac:(lia) R) as O.
  rewrite H in O. inversion O as [j more Rj Ej Eq|]; subst.
  exists more. reflexivity.
Qed.

(** *** What the records of a state are *)

Lemma parseSubtitleBlock_ok (lines : list string) (i : nat) (ts : string)
      (sub : Subtitle) (n : nat) :
  nth_error lines i = Some ts ->
  parseSubtitleBlock lines i = Ok (sub, n) ->
  exists s e, parseTimestamps ts = Ok (s, e) /\
              sub = mkSubtitle s e (blockText lines i) /\
              n = blockEnd lines i.
Proof.
  intros E. rewrite parseSubtitleBlock_spec, E.
  destruct (parseTimestamps ts) as [[s e]|err]; [|discriminate].
  intros H. injection H as <- <-. exists s, e. auto.
Qed.

Lemma reach_blocks (lines : list string) (i : nat) (acc : list Subtitle) :
  reach lines i acc ->
  Forall (fun r => exists j, (j < i)%nat /\ isBlockAt lines j r) acc.
Proof.
  induction 1 as [|i acc line R IH E B|i acc line R IH E B T
                  |i acc line sub n R IH E B T P].
  - constructor.
  - eapply Forall_impl; [|exact IH]. intros r (j & Hj & Hr). eauto.
  - eapply Forall_impl; [|exact IH]. intros r (j & Hj & Hr). eauto.
  - pose proof (parseSubtitleBlock_next _ _ _ _ P) as Hn.
    apply Forall_app. split.
    + eapply Forall_impl; [|exact IH]. intros r (j & Hj & Hr).
      exists j. split; [lia | exact Hr].
    + constructor; [|constructor].
      destruct (parseSubtitleBlock_ok _ _ _ _ _ E P) as (s & e & Hp & -> & _).
      exists i. split; [lia|]. exists line, s, e. auto.
Qed.

(** *** The loop looks forward only *)

Lemma skipn_S_tl (A : Type) (i : nat) (l : list A) :
  skipn (S i) l = tl (skipn i l).
Proof.
  revert l. induction i as [|i IH]; intros [|x l]; try reflexivity.
  change (skipn (S (S i)) (x :: l)) with (skipn (S i) l).
  change (skipn (S i) (x :: l)) with (skipn i l). apply IH.
Qed.

Lemma skipn_blockEnd (lines : list string) (i : nat) :
  skipn (blockEnd lines i) lines =
  skipn (List.length (textRun (skipn (S i) lines))) (skipn (S i) lines).
Proof.
  unfold blockEnd. rewrite skipn_skipn. f_equal. lia.
Qed.

Lemma skipn_eq_length (lines lines' : list string) (i j : nat) :
  skipn i lines = skipn j lines' ->
  (List.length lines - i = List.length lines' - j)%nat.
Proof.
  intros H. rewrite <- !length_skipn, H. reflexivity.
Qed.

(** Two lists of lines with the same lines from [i] and from [j] on
    give the same result from there. *)
Lemma scanFrom_suffix (k : nat) :
  forall lines lines' i j acc,
    (List.length lines - i <= k)%nat ->
    skipn i lines = skipn j lines' ->
    scanFrom lines i acc = scanFrom lines' j acc.
Proof.
  induction k as [|k IH]; intros lines lines' i j acc Hk Hs.
  - pose proof (skipn_eq_length _ _ _ _ Hs) as L.
    rewrite !scanFrom_done; [reflexivity | |]; apply nth_error_None; lia.
  - pose proof (skipn_eq_length _ _ _ _ Hs) as L.
    assert (N : nth_error lines i = nth_error lines' j)
      by (rewrite <- !hd_error_skipn, Hs; reflexivity).
    assert (S' : skipn (S i) lines = skipn (S j) lines')
      by (rewrite !skipn_S_tl, Hs; reflexivity).
    destruct (nth_error lines i) as [line|] eqn:E.
    + symmetry in N.
      assert (Hi : (i < List.length lines)%nat)
        by (apply nth_error_Some; congruence).
      rewrite (scanFrom_unfold _ _ _ _ E), (scanFrom_unfold _ _ _ _ N).
      destruct (isEmpty line); [apply IH; [lia | exact S']|].
      destruct (isTimestampLine line); [|apply IH; [lia | exact S']].
      rewrite !parseSubtitleBlock_spec, E, N.
      destruct (parseTimestamps line) as [[s e]|err]; [|reflexivity].
      unfold blockText. rewrite S'. apply IH.
      * pose proof (blockEnd_bounds lines i Hi). lia.
      * rewrite !skipn_blockEnd, S'. reflexivity.
    + symmetry in N. rewrite !scanFrom_done by assumption. reflexivity.
Qed.

Lemma textRun_stop (l : string) (a b b' : list string) :
  isEmpty l = false ->
  (List.length (textRun (a ++ l :: b)) <= List.length a)%nat ->
  textRun (a ++ l :: b) = textRun (a ++ b').
Proof.
  intros Hl. induction a as [|x a IH]; simpl.
  - rewrite Hl. simpl. lia.
  - destruct (isEmpty x); [reflexivity|]. simpl.
    intros H. f_equal. apply IH. lia.
Qed.

(** The states of the scan up to a line that is not empty do not depend
    on the lines after it. *)
Lemma reach_prefix (pre post post' : list string) (l : string)
      (i : nat) (acc : list Subtitle) :
  isEmpty l = false ->
  reach (pre ++ l :: post) i acc -> (i <= List.length pre)%nat ->
  reach (pre ++ post') i acc.
Proof.
  intros Hl R.
  induction R as [|i acc line R IH E B|i acc line R IH E B T
                  |i acc line sub n R IH E B T P]; intros Hi.
  - constructor.
  - apply reach_blank with (line := line); [apply IH; lia | | exact B].
    rewrite nth_error_app1 in E |- * by lia. exact E.
  - apply reach_stray with (line := line);
      [apply IH; lia | | exact B | exact T].
    rewrite nth_error_app1 in E |- * by lia. exact E.
  - pose proof (parseSubtitleBlock_next _ _ _ _ P) as Hn.
    assert (E' : nth_error (pre ++ post') i = Some line)
      by (rewrite nth_error_app1 in E |- * by lia; exact E).
    apply reach_block with (i := i) (line := line);
      [apply IH; lia | exact E' | exact B | exact T |].
    destruct (parseSubtitleBlock_ok _ _ _ _ _ E P) as (s & e & Hp & -> & ->).
    rewrite parseSubtitleBlock_spec, E', Hp.
    assert (X : textRun (skipn (S i) (pre ++ l :: post)) =
                textRun (skipn (S i) (pre ++ post'))).
    { rewrite !skipn_app.
      replace (S i - List.length pre)%nat with 0%nat by lia.
      rewrite !skipn_O.
      apply textRun_stop; [exact Hl|].
      unfold blockEnd in Hi, Hn. rewrite skipn_app in Hi.
      replace (S i - List.length pre)%nat with 0%nat in Hi by lia.
      rewrite skipn_O in Hi. rewrite length_skipn. lia. }
    unfold blockText, blockEnd. rewrite X. reflexivity.
Qed.

(** Lines that are no timestamp lines make no record. *)
Lemma scanFrom_no_timestamp (lines : list string) (k : nat) :
  Forall (fun l => isTimestampLine l = false) lines ->
  forall i acc, (List.length lines - i <= k)%nat ->
                scanFrom lines i acc = (acc, None).
Proof.
  intros F. induction k as [|k IH]; intros i acc Hk.
  - apply scanFrom_done. apply nth_error_None. lia.
  - destruct (nth_error lines i) as [line|] eqn:E.
    + assert (Hi : (i < List.length lines)%nat)
        by (apply nth_error_Some; congruence).
      rewrite (scanFrom_unfold _ _ _ _ E).
      rewrite Forall_forall in F. rewrite (F line (nth_error_In _ _ E)).
      destruct (isEmpty line); apply IH; lia.
    + apply scanFrom_done. exact E.
Qed.

End Scan.

(** ** The formatter *)

Section Formatter.

Lemma append_assoc (a b c : string) : (a ++ b) ++ c = a ++ (b ++ c).
Proof.
  induction a as [|x a IH]; simpl; [reflexivity | rewrite IH; reflexivity].
Qed.

Lemma append_nil_r (a : string) : a ++ "" = a.
Proof.
  induction a as [|x a IH]; simpl; [reflexivity | rewrite IH; reflexivity].
Qed.

Lemma convertLoop_blocks (subtitles : list Subtitle) :
  forall i result,
    convertLoop i subtitles result =
    result ++ flatten (blocksOf (number (i + 1) subtitles)).
Proof.
  induction subtitles as [|s rest IH]; intros i result; simpl.
  - rewrite append_nil_r. reflexivity.
  - rewrite IH. unfold srtBlock. simpl fst. simpl snd.
    rewrite !append_assoc. reflexivity.
Qed.

Lemma number_snd (subtitles : list Subtitle) :
  forall n, map snd (number n subtitles) = subtitles.
Proof.
  induction subtitles as [|s rest IH]; intros n; simpl;
    [reflexivity | rewrite IH; reflexivity].
Qed.

Lemma number_fst (subtitles : list Subtitle) :
  forall k : nat,
    map fst (number (Z.of_nat k) subtitles) =
    map Z.of_nat (seq k (List.length subtitles)).
Proof.
  induction subtitles as [|s rest IH]; intros k; simpl; [reflexivity|].
  f_equal. rewrite <- IH. do 2 f_equal. lia.
Qed.

(** C6: the formatter turns the single record with start 1 s, end 4 s and
    text "X" into the sequence number 1, the line
    [00:00:01,000 --> 00:00:04,000], the text and a blank line. *)
Theorem ConvertToSRT_single_record :
  ConvertToSRT [mkSubtitle (1 * Second) (4 * Second) "X"] =
  "1" ++ NL ++ "00:00:01,000 --> 00:00:04,000" ++ NL ++ "X" ++ NL ++ NL.
Proof. vm_compute. reflexivity. Qed.

(** C7: for N records the formatter writes N blocks, one after the other
    and nothing else; the block at the position k (from 1) has the
    sequence number k and is made from the k-th record alone, so the
    records keep the order of the input whatever their times are. *)
Theorem ConvertToSRT_numbers_in_order (subtitles : list Subtitle) :
  let numbered := number 1 subtitles in
  ConvertToSRT subtitles = flatten (blocksOf numbered) /\
  List.length (blocksOf numbered) = List.length subtitles /\
  map fst numbered = map Z.of_nat (seq 1 (List.length subtitles)) /\
  map snd numbered = subtitles.
Proof.
  intros numbered. subst numbered. repeat split.
  - unfold ConvertToSRT. rewrite convertLoop_blocks. reflexivity.
  - unfold blocksOf. rewrite length_map, <- (length_map snd), number_snd.
    reflexivity.
  - apply (number_fst subtitles 1).
  - apply number_snd.
Qed.

End Formatter.

(** ** The fields of a time *)

Section TimeFields.

(** C9: the field after the period is read as a plain count of
    milliseconds, whatever its number of digits.  With hours, minutes
    and seconds fields in range, a milliseconds field that [Atoi] reads
    as [ms] gives the time with [ms] milliseconds when [ms] is in
    [0, 999], and the out-of-range error with [ms] otherwise; so
    ["0:00:01.5"] is 1 s and 5 ms. *)
Theorem milliseconds_field_is_a_plain_integer
        (p0 p1 s0 s1 : string) (h m s ms : Z) :
  Atoi p0 = Some h -> Atoi p1 = Some m -> Atoi s0 = Some s ->
  Atoi s1 = Some ms ->
  0 <= h <= 23 -> 0 <= m <= 59 -> 0 <= s <= 59 ->
  parseTime (timeString p0 p1 s0 s1) =
  if (0 <=? ms) && (ms <=? 999) then Ok (timeOf h m s ms)
  else Err (MillisecondsOutOfRange ms).
Proof.
  intros A0 A1 A2 A3 Hh Hm Hs.
  rewrite (parseTime_last_field p0 p1 s0 s1 h m s ms) by assumption.
  unfold outOfRange. rewrite Z.gtb_ltb.
  destruct (Z.leb_spec 0 ms), (Z.leb_spec ms 999),
           (Z.ltb_spec ms 0), (Z.ltb_spec 999 ms); simpl; (reflexivity || lia).
Qed.

(** The example of C9: one digit after the period is one millisecond. *)
Lemma milliseconds_one_digit :
  parseTime "0:00:01.5" = Ok (1 * Second + 5 * Millisecond).
Proof.
  apply (milliseconds_field_is_a_plain_integer "0" "00" "01" "5" 0 0 1 5);
    solve [reflexivity | lia].
Defined.

Example milliseconds_four_digits :
  parseTime "0:00:01.0050" = Ok (1 * Second + 50 * Millisecond) /\
  parseTime "0:00:01.1000" = Err (MillisecondsOutOfRange 1000).
Proof. split; vm_compute; reflexivity. Qed.

(** C2 does not hold as it is worded: [Atoi] reads the field ["-1"] as
    the integer -1, and [parseTime] rejects it at the range check. *)
Lemma leading_minus_is_read :
  ~ leading_minus_fails_to_parse /\
  parseTime "-1:00:30.500" = Err (HoursOutOfRange (-1)).
Proof.
  split; [|vm_compute; reflexivity].
  intros H. specialize (H "1"). vm_compute in H. discriminate H.
Qed.

(** A field that reads as zero passes the range check with its sign. *)
Example minus_zero_is_read :
  Atoi "-0" = Some 0 /\ parseTime "-0:00:01.000" = Ok (1 * Second).
Proof. split; vm_compute; reflexivity. Qed.

(** C2, amended: a field made of a minus sign and decimal digits whose
    value [v] is not zero (and fits an [int]) passes the integer-parse
    step, which reads it as [-v]; the range check then rejects it, and
    [parseTime] fails with the out-of-range error of that field carrying
    [-v], in each of the four fields, the fields before it being valid. *)
Theorem negative_field_is_out_of_range (ds : string) (v : Z) :
  ds <> EmptyString -> digitsLoop ds 0 = Some v -> 0 < v <= 2 ^ 63 ->
  let f := String "-" ds in
  Atoi f = Some (- v) /\
  (forall p1 p2,
      ContainsRune p1 ":" = false -> ContainsRune p2 ":" = false ->
      parseTime (f ++ ":" ++ p1 ++ ":" ++ p2) = Err (HoursOutOfRange (- v))) /\
  (forall p0 h p2,
      Atoi p0 = Some h -> 0 <= h <= 23 -> ContainsRune p2 ":" = false ->
      parseTime (p0 ++ ":" ++ f ++ ":" ++ p2) =
      Err (MinutesOutOfRange (- v))) /\
  (forall p0 h p1 m s1,
      Atoi p0 = Some h -> 0 <= h <= 23 -> Atoi p1 = Some m -> 0 <= m <= 59 ->
      ContainsRune s1 ":" = false -> ContainsRune s1 "." = false ->
      parseTime (timeString p0 p1 f s1) = Err (SecondsOutOfRange (- v))) /\
  (forall p0 h p1 m s0 s,
      Atoi p0 = Some h -> 0 <= h <= 23 -> Atoi p1 = Some m -> 0 <= m <= 59 ->
      Atoi s0 = Some s -> 0 <= s <= 59 ->
      parseTime (timeString p0 p1 s0 f) =
      Err (MillisecondsOutOfRange (- v))).
Proof.
  intros Hne Hd Hv f.
  assert (A : Atoi f = Some (- v)) by (apply Atoi_minus; try assumption; lia).
  assert (Fc : ContainsRune f ":" = false) by (eapply Atoi_no_colon; eauto).
  assert (Fp : ContainsRune f "." = false) by (eapply Atoi_no_period; eauto).
  split; [exact A|]. split; [|split; [|split]].
  - intros p1 p2 H1 H2. unfold parseTime.
    rewrite Split_timeString by assumption.
    rewrite A, outOfRange_neg by lia. reflexivity.
  - intros p0 h p2 A0 Hh H2. unfold parseTime.
    rewrite Split_timeString by eauto using Atoi_no_colon.
    rewrite A0, (proj2 (outOfRange_false h 0 23) Hh).
    rewrite A, outOfRange_neg by lia. reflexivity.
  - intros p0 h p1 m s1 A0 Hh A1 Hm Hc Hp. unfold parseTime, timeString.
    rewrite Split_timeString by eauto using Atoi_no_colon, no_colon_seconds.
    rewrite A0, (proj2 (outOfRange_false h 0 23) Hh).
    rewrite A1, (proj2 (outOfRange_false m 0 59) Hm).
    rewrite Split_seconds by assumption.
    rewrite A, outOfRange_neg by lia. reflexivity.
  - intros p0 h p1 m s0 s A0 Hh A1 Hm A2 Hs.
    rewrite (parseTime_last_field p0 p1 s0 f h m s (- v)) by assumption.
    rewrite outOfRange_neg by lia. reflexivity.
Qed.

(** The amended C2 on the field ["-5"], in each of the four places. *)
Lemma negative_field_example :
  Atoi "-5" = Some (-5) /\
  parseTime "-5:00:30.500" = Err (HoursOutOfRange (-5)) /\
  parseTime "1:-5:30.500" = Err (MinutesOutOfRange (-5)) /\
  parseTime "1:30:-5.500" = Err (SecondsOutOfRange (-5)) /\
  parseTime "1:30:45.-5" = Err (MillisecondsOutOfRange (-5)).
Proof.
  destruct (negative_field_is_out_of_range "5" 5) as (A & H & M & S & MS);
    [discriminate | reflexivity | lia |].
  split; [exact A|]. split; [|split; [|split]].
  - exact (H "00" "30.500" eq_refl eq_refl).
  - apply (M "1" 1 "30.500"); [reflexivity | lia | reflexivity].
  - apply (S "1" 1 "30" 30 "500"); solve [reflexivity | lia].
  - apply (MS "1" 1 "30" 30 "45" 45); solve [reflexivity | lia].
Defined.

End TimeFields.

(** ** The parser *)

Section Parser.

Local Open Scope list_scope.

Lemma ParseFromReader_lines (input : string) (lines : list string) :
  readLines input = inl lines -> ParseFromReader input = parseLines lines.
Proof. intros H. unfold ParseFromReader. rewrite H. reflexivity. Qed.

(** A parse that succeeds has read its lines. *)
Lemma ParseFromReader_ok (input : string) (subs : list Subtitle) :
  ParseFromReader input = (subs, None) ->
  exists lines, readLines input = inl lines /\
                parseLines lines = (subs, None).
Proof.
  unfold ParseFromReader.
  destruct (readLines input) as [lines|e]; [eauto | discriminate].
Qed.

(** Every record of a parse that succeeds is the record of a block. *)
Lemma parsed_records_are_blocks (lines : list string)
      (subs : list Subtitle) (r : Subtitle) :
  parseLines lines = (subs, None) -> In r subs ->
  exists i, isBlockAt lines i r.
Proof.
  intros H I. destruct (parseLines_ok_reach _ _ H) as [j R].
  pose proof (reach_blocks _ _ _ R) as F. rewrite Forall_forall in F.
  destruct (F r I) as (i & _ & B). eauto.
Qed.

Lemma parseTimestamps_valid (l : string) (s e : Duration) :
  parseTimestamps l = Ok (s, e) -> validTime s /\ validTime e.
Proof.
  unfold parseTimestamps.
  destruct (Split l ",") as [|p0 [|p1 [|? ?]]]; try discriminate.
  destruct (parseTime (TrimSpace p0)) as [s'|] eqn:P0; [|discriminate].
  destruct (parseTime (TrimSpace p1)) as [e'|] eqn:P1; [|discriminate].
  intros H. injection H as <- <-.
  split; eapply parseTime_valid; eassumption.
Qed.

(** C5: the two blocks of the example of the specification are parsed
    into two records, in the order of the source: 1 s to 4 s with the
    text "Hello", then 5.5 s to 8.2 s with the text "World". *)
Theorem ParseFromReader_two_blocks :
  ParseFromReader
    ("0:00:01.000,0:00:04.000" ++ NL ++ "Hello" ++ NL ++ NL ++
     "0:00:05.500,0:00:08.200" ++ NL ++ "World")%string =
  ([mkSubtitle (1 * Second) (4 * Second) "Hello";
    mkSubtitle (5 * Second + 500 * Millisecond)
               (8 * Second + 200 * Millisecond) "World"],
   None).
Proof. vm_compute. reflexivity. Qed.

(** *** The times of the records, formatted and read again *)

Lemma reparse_formatSRTTime (d : Duration) :
  validTime d -> reparseSRTTime (formatSRTTime d) = Ok d.
Proof.
  intros (h & m & s & ms & R & ->). pose proof R as (Hh & Hm & Hs & Hms).
  rewrite (formatSRTTime_fields _ _ _ _ R).
  assert (Ah : Atoi (Sprintf0d 2 h) = Some h)
    by (apply Atoi_Sprintf02d; lia).
  assert (Am : Atoi (Sprintf0d 2 m) = Some m)
    by (apply Atoi_Sprintf02d; lia).
  assert (As : Atoi (Sprintf0d 2 s) = Some s)
    by (apply Atoi_Sprintf02d; lia).
  assert (Ams : Atoi (Sprintf0d 3 ms) = Some ms)
    by (apply Atoi_Sprintf03d; lia).
  unfold reparseSRTTime.
  replace (Sprintf0d 2 h ++ ":" ++ Sprintf0d 2 m ++ ":" ++
           Sprintf0d 2 s ++ "," ++ Sprintf0d 3 ms)%string
    with ((Sprintf0d 2 h ++ ":" ++ Sprintf0d 2 m ++ ":" ++ Sprintf0d 2 s) ++
          String "," (Sprintf0d 3 ms))%string
    by (rewrite !append_assoc; reflexivity).
  rewrite Split_first.
  - rewrite (Split_none _ _ (Atoi_no_comma _ _ Ams)).
    rewrite !append_assoc.
    apply (parseTime_fields _ _ _ _ h m s ms Ah Am As Ams R).
  - rewrite !ContainsRune_app.
    rewrite (Atoi_no_comma _ _ Ah), (Atoi_no_comma _ _ Am),
            (Atoi_no_comma _ _ As).
    reflexivity.
Qed.

(** C1: for every input that is parsed with success and every record of
    the result, the start and the end, written by [formatSRTTime] and
    read again from the four numbers of that text, are the start and the
    end of the record. *)
Theorem times_survive_formatting (input : string) (subs : list Subtitle)
        (r : Subtitle) :
  ParseFromReader input = (subs, None) -> In r subs ->
  reparseSRTTime (formatSRTTime (StartTime r)) = Ok (StartTime r) /\
  reparseSRTTime (formatSRTTime (EndTime r)) = Ok (EndTime r).
Proof.
  intros H I. destruct (ParseFromReader_ok _ _ H) as (lines & _ & P).
  destruct (parsed_records_are_blocks _ _ _ P I)
    as (i & ts & s & e & _ & _ & T & ->).
  destruct (parseTimestamps_valid _ _ _ T) as [Vs Ve].
  split; apply reparse_formatSRTTime; assumption.
Qed.

(** C1 on the second record of the example of the specification. *)
Lemma times_survive_formatting_example :
  reparseSRTTime (formatSRTTime (5 * Second + 500 * Millisecond)) =
  Ok (5 * Second + 500 * Millisecond) /\
  reparseSRTTime (formatSRTTime (8 * Second + 200 * Millisecond)) =
  Ok (8 * Second + 200 * Millisecond).
Proof.
  apply (times_survive_formatting
           ("0:00:01.000,0:00:04.000" ++ NL ++ "Hello" ++ NL ++ NL ++
            "0:00:05.500,0:00:08.200" ++ NL ++ "World")%string
           [mkSubtitle (1 * Second) (4 * Second) "Hello";
            mkSubtitle (5 * Second + 500 * Millisecond)
                       (8 * Second + 200 * Millisecond) "World"]
           (mkSubtitle (5 * Second + 500 * Millisecond)
                       (8 * Second + 200 * Millisecond) "World")).
  - vm_compute. reflexivity.
  - right. left. reflexivity.
Defined.

(** *** The text of a record *)





(** *** Malformed timestamp lines *)

Lemma outOfRange_true (v lo hi : Z) :
  outOfRange v lo hi = true -> ~ lo <= v <= hi.
Proof.
  intros H R. apply outOfRange_false in R. congruence.
Qed.

Lemma parseTime_fault (t : string) (e : TimeError) :
  parseTime t = Err e -> timeFault t e.
Proof.
  unfold parseTime.
  destruct (Split t ":") as [|p0 [|p1 [|p2 [|p3 ps]]]] eqn:Sp;
    try (intros H; injection H as <-; simpl; rewrite Sp; simpl;
         split; [reflexivity | discriminate]).
  destruct (Atoi p0) as [h|] eqn:A0;
    [|intros H; injection H as <-; simpl; eauto].
  destruct (outOfRange h 0 23) eqn:Rh;
    [intros H; injection H as <-; simpl;
     eauto 8 using outOfRange_true|].
  destruct (Atoi p1) as [m|] eqn:A1;
    [|intros H; injection H as <-; simpl; eauto].
  destruct (outOfRange m 0 59) eqn:Rm;
    [intros H; injection H as <-; simpl;
     eauto 8 using outOfRange_true|].
  destruct (Split p2 ".") as [|s0 [|s1 [|s2 ss]]] eqn:Ss;
    try (intros H; injection H as <-; simpl; exists p0, p1;
         split; [exact Sp | rewrite Ss; simpl; discriminate]).
  destruct (Atoi s0) as [s|] eqn:A2;
    [|intros H; injection H as <-; simpl; eauto 8].
  destruct (outOfRange s 0 59) eqn:Rs;
    [intros H; injection H as <-; simpl;
     eauto 10 using outOfRange_true|].
  destruct (Atoi s1) as [ms|] eqn:A3;
    [|intros H; injection H as <-; simpl; eauto 8].
  destruct (outOfRange ms 0 999) eqn:Rms;
    [intros H; injection H as <-; simpl;
     eauto 10 using outOfRange_true | discriminate].
Qed.

Lemma parseTimestamps_fault (l : string) (e : TimestampsError) :
  parseTimestamps l = Err e -> timestampsFault l e.
Proof.
  unfold parseTimestamps.
  destruct (Split l ",") as [|p0 [|p1 [|p2 ps]]] eqn:Sp;
    try (intros H; injection H as <-; simpl; rewrite Sp; simpl;
         split; [reflexivity | discriminate]).
  destruct (parseTime (TrimSpace p0)) as [s|e0] eqn:P0.
  - destruct (parseTime (TrimSpace p1)) as [e'|e1] eqn:P1; [discriminate|].
    intros H. injection H as <-. simpl.
    exists p0, p1. split; [exact Sp | apply parseTime_fault; exact P1].
  - intros H. injection H as <-. simpl.
    exists p0, p1. split; [exact Sp | apply parseTime_fault; exact P0].
Qed.

Lemma isTimestampLine_not_empty (l : string) :
  isTimestampLine l = true -> isEmpty l = false.
Proof. destruct l; [discriminate | reflexivity]. Qed.

(** A block that fails ends the parse, whatever was parsed before. *)
Lemma reach_failed_block (lines : list string) (i : nat)
      (acc : list Subtitle) (l : string) (e : TimestampsError) :
  reach lines i acc -> nth_error lines i = Some l ->
  isTimestampLine l = true -> parseTimestamps l = Err e ->
  parseLines lines = ([], Some (FailedBlock (FailedTimestamps e))).
Proof.
  intros R E T P.
  rewrite (reach_scanFrom _ _ _ R), (scanFrom_unfold _ _ _ _ E).
  rewrite (isTimestampLine_not_empty _ T), T.
  rewrite parseSubtitleBlock_spec, E, P. reflexivity.
Qed.

(** A time that is read has none of the listed faults. *)
Lemma parseTime_ok_no_fault (t : string) (d : Duration) :
  parseTime t = Ok d -> ~ timeHasFault t.
Proof.
  unfold parseTime.
  destruct (Split t ":") as [|p0 [|p1 [|p2 [|p3 ps]]]] eqn:Sp;
    try discriminate.
  destruct (Atoi p0) as [h|] eqn:A0; [|discriminate].
  destruct (outOfRange h 0 23) eqn:Rh; [discriminate|].
  destruct (Atoi p1) as [m|] eqn:A1; [|discriminate].
  destruct (outOfRange m 0 59) eqn:Rm; [discriminate|].
  destruct (Split p2 ".") as [|s0 [|s1 [|s2 ss]]] eqn:Ss; try discriminate.
  destruct (Atoi s0) as [s|] eqn:A2; [|discriminate].
  destruct (outOfRange s 0 59) eqn:Rs; [discriminate|].
  destruct (Atoi s1) as [ms|] eqn:A3; [|discriminate].
  destruct (outOfRange ms 0 999) eqn:Rms; [discriminate|].
  intros _ [N | (q0 & q1 & q2 & E & F)];
    [apply N; rewrite Sp; reflexivity|].
  rewrite Sp in E. injection E as <- <- <-.
  assert (B : forall f v lo hi,
             Atoi f = Some v -> outOfRange v lo hi = false ->
             ~ badField f lo hi).
  { intros f v lo hi A R. unfold badField. rewrite A. intros N. apply N.
    apply outOfRange_false. exact R. }
  destruct F as [F | [F | [F | (r0 & r1 & E & F)]]].
  - exact (B _ _ _ _ A0 Rh F).
  - exact (B _ _ _ _ A1 Rm F).
  - apply F. rewrite Ss. reflexivity.
  - rewrite Ss in E. injection E as <- <-. destruct F as [F | F].
    + exact (B _ _ _ _ A2 Rs F).
    + exact (B _ _ _ _ A3 Rms F).
Qed.

(** A timestamp line that is read has none of the listed faults. *)
Lemma parseTimestamps_ok_no_fault (l : string) (p : Duration * Duration) :
  parseTimestamps l = Ok p -> ~ lineHasFault l.
Proof.
  unfold parseTimestamps.
  destruct (Split l ",") as [|p0 [|p1 [|p2 ps]]] eqn:Sp; try discriminate.
  destruct (parseTime (TrimSpace p0)) as [s|e0] eqn:P0; [|discriminate].
  destruct (parseTime (TrimSpace p1)) as [e|e1] eqn:P1; [|discriminate].
  intros _ [N | (q0 & q1 & E & [F | F])].
  - apply N. rewrite Sp. reflexivity.
  - rewrite Sp in E. injection E as <- <-.
    exact (parseTime_ok_no_fault _ _ P0 F).
  - rewrite Sp in E. injection E as <- <-.
    exact (parseTime_ok_no_fault _ _ P1 F).
Qed.

(** The listed faults are all the ways to fail: the fault an error tells
    is one of them. *)
Lemma timeFault_listed (t : string) (e : TimeError) :
  timeFault t e -> timeHasFault t.
Proof.
  unfold timeHasFault, badField.
  destruct e as [s | s | v | s | v | s | s | v | s | v]; simpl.
  - intros [_ N]. left. exact N.
  - intros (p1 & p2 & Sp & A). right. exists s, p1, p2.
    split; [exact Sp | left; rewrite A; exact I].
  - intros (f & p1 & p2 & Sp & A & R). right. exists f, p1, p2.
    split; [exact Sp | left; rewrite A; exact R].
  - intros (p0 & p2 & Sp & A). right. exists p0, s, p2.
    split; [exact Sp | right; left; rewrite A; exact I].
  - intros (p0 & f & p2 & Sp & A & R). right. exists p0, f, p2.
    split; [exact Sp | right; left; rewrite A; exact R].
  - intros (p0 & p1 & Sp & N). right. exists p0, p1, s.
    split; [exact Sp | right; right; left; exact N].
  - intros (p0 & p1 & p2 & s1 & Sp & Ss & A). right. exists p0, p1, p2.
    split; [exact Sp | right; right; right]. exists s, s1.
    split; [exact Ss | left; rewrite A; exact I].
  - intros (p0 & p1 & p2 & f & s1 & Sp & Ss & A & R). right.
    exists p0, p1, p2. split; [exact Sp | right; right; right].
    exists f, s1. split; [exact Ss | left; rewrite A; exact R].
  - intros (p0 & p1 & p2 & s0 & Sp & Ss & A). right. exists p0, p1, p2.
    split; [exact Sp | right; right; right]. exists s0, s.
    split; [exact Ss | right; rewrite A; exact I].
  - intros (p0 & p1 & p2 & s0 & f & Sp & Ss & A & R). right.
    exists p0, p1, p2. split; [exact Sp | right; right; right].
    exists s0, f. split; [exact Ss | right; rewrite A; exact R].
Qed.

(** A timestamp line is rejected exactly when it has a listed fault. *)
Lemma parseTimestamps_rejects_iff (l : string) :
  (exists e, parseTimestamps l = Err e) <-> lineHasFault l.
Proof.
  split.
  - intros [e P]. apply parseTimestamps_fault in P.
    destruct e as [s | e' | e']; simpl in P.
    + left. exact (proj2 P).
    + destruct P as (a & b & Sp & F). right. exists a, b.
      split; [exact Sp | left; exact (timeFault_listed _ _ F)].
    + destruct P as (a & b & Sp & F). right. exists a, b.
      split; [exact Sp | right; exact (timeFault_listed _ _ F)].
  - intros F. destruct (parseTimestamps l) as [p|e] eqn:P.
    + exfalso. exact (parseTimestamps_ok_no_fault _ _ P F).
    + exists e. reflexivity.
Qed.

(** The text of the error of a malformed timestamp line. *)
Lemma FailedBlock_text (e : TimestampsError) :
  ParseError_Error (FailedBlock (FailedTimestamps e)) =
  ("failed to parse subtitle block: failed to parse timestamps: " ++
   TimestampsError_Error e)%string.
Proof. reflexivity. Qed.

(** C4 as it is worded does not hold: the error does not tell the line.
    A line with 60 minutes that is the first line of one input, and
    another line with 60 minutes that is the third line of another input,
    abort the parse with one and the same error, of the same text: the
    error carries the value 60 and the name of the field, and nothing of
    the line or of its place. *)
Lemma error_does_not_identify_the_line : ~ error_identifies_the_line.
Proof.
  intros H.
  assert (F1 : lineHasFault "0:60:01.000,0:00:04.000").
  { right. exists "0:60:01.000"%string, "0:00:04.000"%string.
    split; [reflexivity | left]. right.
    exists "0"%string, "60"%string, "01.000"%string.
    split; [reflexivity | right; left].
    unfold badField. change (Atoi "60") with (Some 60).
    cbv beta iota. lia. }
  assert (F2 : lineHasFault "0:60:09.999,1:00:00.000").
  { right. exists "0:60:09.999"%string, "1:00:00.000"%string.
    split; [reflexivity | left]. right.
    exists "0"%string, "60"%string, "09.999"%string.
    split; [reflexivity | right; left].
    unfold badField. change (Atoi "60") with (Some 60).
    cbv beta iota. lia. }
  destruct (H "0:60:01.000,0:00:04.000"%string
              ("note" ++ NL ++ NL ++ "0:60:09.999,1:00:00.000")%string
              ["0:60:01.000,0:00:04.000"%string]
              ["note"; ""; "0:60:09.999,1:00:00.000"]%string
              0%nat 2%nat [] []
              "0:60:01.000,0:00:04.000"%string
              "0:60:09.999,1:00:00.000"%string
              (FailedBlock (FailedTimestamps
                              (FailedStartTime (MinutesOutOfRange 60)))))
    as [E | E]; try reflexivity; try assumption; try discriminate E.
  - apply reach_start.
  - apply (reach_blank _ 1 _ ""%string); [|reflexivity|reflexivity].
    apply (reach_stray _ 0 [] "note"%string);
      [apply reach_start | reflexivity | reflexivity | reflexivity].
Qed.

(** C4, amended: when the scan arrives at a timestamp line (a line with a
    comma and a colon) that has one of the listed faults (the number of
    parts around the commas, around the colons or around the period, a
    field that is no integer or is out of its range), the line is
    rejected and the parse returns no record at all, whatever the blocks
    before it gave.  The error is the error of that line: it tells which
    check failed and on which text or value, and it is wrapped in the two
    fixed prefixes; the line itself is in it for a wrong number of commas
    only, and its place never. *)
Theorem malformed_timestamp_line_aborts (input : string)
        (lines : list string) (i : nat) (acc : list Subtitle) (l : string) :
  readLines input = inl lines ->
  reach lines i acc -> nth_error lines i = Some l ->
  isTimestampLine l = true -> lineHasFault l ->
  exists e,
    parseTimestamps l = Err e /\ timestampsFault l e /\
    ParseFromReader input = ([], Some (FailedBlock (FailedTimestamps e))) /\
    ParseError_Error (FailedBlock (FailedTimestamps e)) =
    ("failed to parse subtitle block: failed to parse timestamps: " ++
     TimestampsError_Error e)%string.
Proof.
  intros L R E T F.
  destruct (parseTimestamps l) as [p|e] eqn:P.
  - exfalso. exact (parseTimestamps_ok_no_fault _ _ P F).
  - exists e. split; [reflexivity|]. split; [|split].
    + apply parseTimestamps_fault. exact P.
    + rewrite (ParseFromReader_lines _ _ L).
      eapply reach_failed_block; eassumption.
    + apply FailedBlock_text.
Qed.

(** The amended C4 on a second block with 60 minutes: the record of the
    first block is not returned. *)
Lemma malformed_timestamp_line_example :
  exists e,
    parseTimestamps "0:60:01.000,0:00:04.000" = Err e /\
    timestampsFault "0:60:01.000,0:00:04.000" e /\
    ParseFromReader
      ("0:00:01.000,0:00:04.000" ++ NL ++ "Hello" ++ NL ++ NL ++
       "0:60:01.000,0:00:04.000" ++ NL ++ "World")%string =
    ([], Some (FailedBlock (FailedTimestamps e))) /\
    ParseError_Error (FailedBlock (FailedTimestamps e)) =
    ("failed to parse subtitle block: failed to parse timestamps: " ++
     TimestampsError_Error e)%string.
Proof.
  apply (malformed_timestamp_line_aborts
           ("0:00:01.000,0:00:04.000" ++ NL ++ "Hello" ++ NL ++ NL ++
            "0:60:01.000,0:00:04.000" ++ NL ++ "World")%string
           ["0:00:01.000,0:00:04.000"; "Hello"; "";
            "0:60:01.000,0:00:04.000"; "World"]%string
           3 [mkSubtitle (1 * Second) (4 * Second) "Hello"]
           "0:60:01.000,0:00:04.000").
  - vm_compute. reflexivity.
  - apply (reach_blank _ 2 _ ""%string); [|reflexivity|reflexivity].
    apply (reach_block _ 0 [] "0:00:01.000,0:00:04.000"%string
                       (mkSubtitle (1 * Second) (4 * Second) "Hello") 2);
      [apply reach_start | reflexivity | reflexivity | reflexivity |].
    vm_compute. reflexivity.
  - reflexivity.
  - reflexivity.
  - right. exists "0:60:01.000"%string, "0:00:04.000"%string.
    split; [reflexivity | left]. right.
    exists "0"%string, "60"%string, "01.000"%string.
    split; [reflexivity | right; left].
    unfold badField. change (Atoi "60") with (Some 60).
    cbv beta iota. lia.
Defined.

(** *** Stray lines *)

(** The parse with a stray line at a state of the scan is the parse
    without that line. *)
Lemma parseLines_without_stray (pre post : list string) (l : string)
      (acc : list Subtitle) :
  isEmpty l = false -> isTimestampLine l = false ->
  reach (pre ++ l :: post) (List.length pre) acc ->
  parseLines (pre ++ l :: post) = parseLines (pre ++ post).
Proof.
  intros B T R.
  assert (E : nth_error (pre ++ l :: post) (List.length pre) = Some l)
    by (rewrite nth_error_app2, Nat.sub_diag by lia; reflexivity).
  rewrite (reach_scanFrom _ _ _ R), (scanFrom_unfold _ _ _ _ E), B, T.
  rewrite (reach_scanFrom _ _ _ (reach_prefix pre post post l _ _ B R
                                              (Nat.le_refl _))).
  apply (scanFrom_suffix (List.length (pre ++ l :: post))); [lia|].
  rewrite !skipn_app.
  rewrite (skipn_all2 (n := S (List.length pre)) pre) by lia.
  rewrite (skipn_all2 (n := List.length pre) pre) by lia.
  replace (S (List.length pre) - List.length pre)%nat with 1%nat by lia.
  rewrite Nat.sub_diag. reflexivity.
Qed.

(** C8, amended: in an input that the scanner reads (no line of 65536
    bytes or more), a line that is not empty once trimmed, that has no
    comma or no colon, and that the scan meets outside a block is passed
    over: the scan goes on to the next line with the records it had, with
    no error, and the result of the parse is the result for the input
    without that line, so the line is in the text of no record.  Lines of
    that kind alone give no record and no error. *)
Theorem stray_line_is_skipped (input : string) (lines : list string) :
  readLines input = inl lines ->
  (forall pre l post acc,
      lines = pre ++ l :: post ->
      isEmpty l = false -> isTimestampLine l = false ->
      reach lines (List.length pre) acc ->
      reach lines (S (List.length pre)) acc /\
      ParseFromReader input = parseLines (pre ++ post)) /\
  (Forall (fun l => isTimestampLine l = false) lines ->
   ParseFromReader input = ([], None)).
Proof.
  intros L. rewrite (ParseFromReader_lines _ _ L). split.
  - intros pre l post acc -> B T R. split.
    + apply reach_stray with (line := l); try assumption.
      rewrite nth_error_app2, Nat.sub_diag by lia. reflexivity.
    + eapply parseLines_without_stray; eassumption.
  - intros F. rewrite parseLines_scanFrom.
    apply (scanFrom_no_timestamp lines (List.length lines) F). lia.
Qed.

(** The amended C8 on a stray line between two blocks, and on stray lines
    alone. *)
Lemma stray_line_example :
  ParseFromReader
    ("note: draft" ++ NL ++ "0:00:01.000,0:00:04.000" ++ NL ++ "Hello" ++
     NL ++ NL ++ " end of part 1 " ++ NL ++ "0:00:05.500,0:00:08.200" ++
     NL ++ "World")%string =
  parseLines ["note: draft"; "0:00:01.000,0:00:04.000"; "Hello"; "";
              "0:00:05.500,0:00:08.200"; "World"]%string /\
  ParseFromReader ("one" ++ NL ++ "two, three" ++ NL ++ "4:5")%string =
  ([], None).
Proof.
  split.
  - refine (proj2 (proj1 (stray_line_is_skipped
             ("note: draft" ++ NL ++ "0:00:01.000,0:00:04.000" ++ NL ++
              "Hello" ++ NL ++ NL ++ " end of part 1 " ++ NL ++
              "0:00:05.500,0:00:08.200" ++ NL ++ "World")%string
             ["note: draft"; "0:00:01.000,0:00:04.000"; "Hello"; "";
              "end of part 1"; "0:00:05.500,0:00:08.200"; "World"]%string
             _)
             ["note: draft"; "0:00:01.000,0:00:04.000"; "Hello"; ""]%string
             "end of part 1"%string
             ["0:00:05.500,0:00:08.200"; "World"]%string
             [mkSubtitle (1 * Second) (4 * Second) "Hello"]
             _ _ _ _)).
    + vm_compute. reflexivity.
    + reflexivity.
    + reflexivity.
    + reflexivity.
    + apply (reach_blank _ 3 _ ""%string); [|reflexivity|reflexivity].
      apply (reach_block _ 1 [] "0:00:01.000,0:00:04.000"%string
                         (mkSubtitle (1 * Second) (4 * Second) "Hello") 3);
        [|reflexivity | reflexivity | reflexivity | vm_compute; reflexivity].
      apply (reach_stray _ 0 [] "note: draft"%string);
        [apply reach_start | reflexivity | reflexivity | reflexivity].
  - refine (proj2 (stray_line_is_skipped
             ("one" ++ NL ++ "two, three" ++ NL ++ "4:5")%string
             ["one"; "two, three"; "4:5"]%string _) _).
    + vm_compute. reflexivity.
    + repeat constructor.
Defined.

(** *** Blocks without text *)

(** C10 does not hold as it is worded: here a valid timestamp line is
    followed by an empty line, and the parse fails on the block after
    it. *)
Lemma empty_block_before_malformed_line : ~ empty_block_always_parses.
Proof.
  intros H.
  destruct (H ("0:00:01.000,0:00:02.000" ++ NL ++ NL ++
               "0:99:00.000,0:00:03.000")%string
              ["0:00:01.000,0:00:02.000"; ""; "0:99:00.000,0:00:03.000"]%string
              0%nat "0:00:01.000,0:00:02.000"%string
              (1 * Second) (2 * Second))
    as (subs & P & _).
  - vm_compute. reflexivity.
  - reflexivity.
  - reflexivity.
  - vm_compute. reflexivity.
  - right. reflexivity.
  - vm_compute in P. discriminate P.
Qed.

(** A timestamp line inside the text of a block starts no block of its
    own: it is a line of that text. *)
Example timestamp_line_inside_a_block :
  ParseFromReader ("0:00:01.000,0:00:02.000" ++ NL ++
                   "0:00:03.000,0:00:04.000")%string =
  ([mkSubtitle (1 * Second) (2 * Second) "0:00:03.000,0:00:04.000"], None).
Proof. vm_compute. reflexivity. Qed.

Lemma textRun_empty_next (lines : list string) (i : nat) :
  nth_error lines (S i) = None \/ nth_error lines (S i) = Some ""%string ->
  textRun (skipn (S i) lines) = [].
Proof.
  intros H. rewrite <- !hd_error_skipn in H.
  destruct (skipn (S i) lines) as [|x rest]; [reflexivity|].
  simpl in H. destruct H as [H|H]; [discriminate|].
  injection H as ->. reflexivity.
Qed.

(** C10, amended: when the scan arrives, outside a block, at a valid
    timestamp line that is followed by an empty line or by the end of the
    input, the block is parsed without error into a record with the empty
    text and the scan goes on at the next line with that record added.
    The parse as a whole still fails when a block met later is malformed;
    when it succeeds, the record is in its result, and it does succeed
    when no line after the block is a timestamp line. *)
Theorem empty_block_gives_empty_text (input : string) (lines : list string)
        (i : nat) (acc : list Subtitle) (ts : string) (s e : Duration) :
  readLines input = inl lines ->
  reach lines i acc -> nth_error lines i = Some ts ->
  isTimestampLine ts = true -> parseTimestamps ts = Ok (s, e) ->
  nth_error lines (S i) = None \/ nth_error lines (S i) = Some ""%string ->
  let r := mkSubtitle s e "" in
  parseSubtitleBlock lines i = Ok (r, S i) /\
  reach lines (S i) (acc ++ [r]) /\
  ParseFromReader input = scanFrom lines (S i) (acc ++ [r]) /\
  (forall subs, ParseFromReader input = (subs, None) -> In r subs) /\
  (Forall (fun l => isTimestampLine l = false) (skipn (S i) lines) ->
   ParseFromReader input = (acc ++ [r], None)).
Proof.
  intros L R E T P N r.
  assert (B : parseSubtitleBlock lines i = Ok (r, S i)).
  { rewrite parseSubtitleBlock_spec, E, P. unfold blockText, blockEnd.
    rewrite (textRun_empty_next _ _ N). simpl. rewrite Nat.add_0_r.
    reflexivity. }
  assert (R' : reach lines (S i) (acc ++ [r])).
  { eapply reach_block; eauto using isTimestampLine_not_empty. }
  rewrite (ParseFromReader_lines _ _ L).
  split; [exact B|]. split; [exact R'|].
  split; [apply reach_scanFrom; exact R'|]. split.
  - intros subs H. destruct (reach_extends _ _ _ _ R' H) as [more ->].
    apply in_or_app. left. apply in_or_app. right. left. reflexivity.
  - intros F. rewrite (reach_scanFrom _ _ _ R').
    rewrite (scanFrom_suffix (List.length lines) lines (skipn (S i) lines)
                             (S i) 0 (acc ++ [r]));
      [|lia | reflexivity].
    apply (scanFrom_no_timestamp _ (List.length (skipn (S i) lines)) F). lia.
Qed.

(** The amended C10 on a timestamp line followed by an empty line and a
    stray line. *)
Lemma empty_block_example :
  ParseFromReader ("0:00:01.000,0:00:02.000" ++ NL ++ NL ++ "the end")%string =
  ([mkSubtitle (1 * Second) (2 * Second) ""], None).
Proof.
  refine (proj2 (proj2 (proj2 (proj2 (empty_block_gives_empty_text
            ("0:00:01.000,0:00:02.000" ++ NL ++ NL ++ "the end")%string
            ["0:00:01.000,0:00:02.000"; ""; "the end"]%string
            0 [] "0:00:01.000,0:00:02.000"%string (1 * Second) (2 * Second)
            _ _ _ _ _ _)))) _).
  - vm_compute. reflexivity.
  - apply reach_start.
  - reflexivity.
  - reflexivity.
  - vm_compute. reflexivity.
  - right. reflexivity.
  - repeat constructor.
Defined.

End Parser.

(** ** What the parser accepts *)

Section Grammar.

Lemma Split_not_nil (s : string) (sep : ascii) : Split s sep <> [].
Proof.
  destruct s as [|c t]; simpl; [discriminate|].
  destruct (Ascii.eqb c sep); [discriminate|].
  destruct (Split t sep); discriminate.
Qed.

(** The parts of [Split] put together again. *)
Lemma Split_cons_inv (s : string) (sep : ascii) (a b : string)
      (rest : list string) :
  Split s sep = a :: b :: rest ->
  exists s', s = a ++ String sep s' /\ ContainsRune a sep = false /\
             Split s' sep = b :: rest.
Proof.
  revert a. induction s as [|x s IH]; intros a; simpl; [discriminate|].
  destruct (Ascii.eqb x sep) eqn:E.
  - apply Ascii.eqb_eq in E. subst x. intros H. injection H as <- H.
    exists s. auto.
  - destruct (Split s sep) as [|p ps] eqn:Sp; [discriminate|].
    intros H. injection H as <- ->.
    destruct (IH p eq_refl) as (s' & -> & Hp & Hs).
    exists s'. rewrite ContainsRune_cons, E. auto.
Qed.

Lemma Split_single_inv (s : string) (sep : ascii) (a : string) :
  Split s sep = [a] -> s = a /\ ContainsRune a sep = false.
Proof.
  revert a. induction s as [|x s IH]; intros a; simpl.
  - intros H. injection H as <-. auto.
  - destruct (Ascii.eqb x sep) eqn:E.
    + intros H. injection H as _ H. exfalso. revert H. apply Split_not_nil.
    + destruct (Split s sep) as [|p ps] eqn:Sp;
        [exfalso; revert Sp; apply Split_not_nil|].
      intros H. injection H as <- ->.
      destruct (IH p eq_refl) as [-> Hp].
      rewrite ContainsRune_cons, E. auto.
Qed.

Lemma Split_two_inv (s : string) (sep : ascii) (a b : string) :
  Split s sep = [a; b] ->
  s = a ++ String sep b /\ ContainsRune a sep = false /\
  ContainsRune b sep = false.
Proof.
  intros H. destruct (Split_cons_inv _ _ _ _ _ H) as (s' & -> & Ha & Hs).
  destruct (Split_single_inv _ _ _ Hs) as [-> Hb]. auto.
Qed.

Lemma Split_three_inv (s : string) (sep : ascii) (a b c : string) :
  Split s sep = [a; b; c] ->
  s = a ++ String sep (b ++ String sep c) /\ ContainsRune a sep = false /\
  ContainsRune b sep = false /\ ContainsRune c sep = false.
Proof.
  intros H. destruct (Split_cons_inv _ _ _ _ _ H) as (s' & -> & Ha & Hs).
  destruct (Split_two_inv _ _ _ _ Hs) as (-> & Hb & Hc). auto.
Qed.

(** A text that [parseTime] accepts is made of four fields. *)
Lemma parseTime_ok_fields (t : string) (d : Duration) :
  parseTime t = Ok d ->
  exists p0 p1 s0 s1 h m s ms,
    t = timeString p0 p1 s0 s1 /\
    Atoi p0 = Some h /\ Atoi p1 = Some m /\
    Atoi s0 = Some s /\ Atoi s1 = Some ms /\
    fieldsInRange h m s ms /\ d = timeOf h m s ms.
Proof.
  unfold parseTime.
  destruct (Split t ":") as [|p0 [|p1 [|p2 [|? ?]]]] eqn:Sp;
    try discriminate.
  destruct (Atoi p0) as [h|] eqn:A0; [|discriminate].
  destruct (outOfRange h 0 23) eqn:Rh; [discriminate|].
  destruct (Atoi p1) as [m|] eqn:A1; [|discriminate].
  destruct (outOfRange m 0 59) eqn:Rm; [discriminate|].
  destruct (Split p2 ".") as [|s0 [|s1 [|? ?]]] eqn:Ss; try discriminate.
  destruct (Atoi s0) as [s|] eqn:A2; [|discriminate].
  destruct (outOfRange s 0 59) eqn:Rs; [discriminate|].
  destruct (Atoi s1) as [ms|] eqn:A3; [|discriminate].
  destruct (outOfRange ms 0 999) eqn:Rms; [discriminate|].
  apply outOfRange_false in Rh, Rm, Rs, Rms.
  assert (R : fieldsInRange h m s ms) by (unfold fieldsInRange; tauto).
  rewrite (total_no_wrap _ _ _ _ R). intros E. injection E as <-.
  destruct (Split_three_inv _ _ _ _ _ Sp) as (-> & _).
  destruct (Split_two_inv _ _ _ _ Ss) as (-> & _).
  exists p0, p1, s0, s1, h, m, s, ms.
  split; [reflexivity|]. repeat (split; [assumption|]). reflexivity.
Qed.

(** A line that [parseTimestamps] accepts has one comma, between two
    times. *)
Lemma parseTimestamps_ok_sides (l : string) (s e : Duration) :
  parseTimestamps l = Ok (s, e) ->
  exists a b,
    l = a ++ "," ++ b /\
    ContainsRune a "," = false /\ ContainsRune b "," = false /\
    parseTime (TrimSpace a) = Ok s /\ parseTime (TrimSpace b) = Ok e.
Proof.
  unfold parseTimestamps.
  destruct (Split l ",") as [|a [|b [|? ?]]] eqn:Sp; try discriminate.
  destruct (parseTime (TrimSpace a)) as [s'|] eqn:P0; [|discriminate].
  destruct (parseTime (TrimSpace b)) as [e'|] eqn:P1; [|discriminate].
  intros H. injection H as <- <-.
  destruct (Split_two_inv _ _ _ _ Sp) as (-> & Ha & Hb).
  exists a, b. auto.
Qed.

(** X4: [parseTime] accepts exactly the texts made of four fields that
    [Atoi] reads, in range, with colons after the first two and a period
    before the last; the time is the sum of the four fields. *)
Theorem parseTime_accepts_iff (t : string) (d : Duration) :
  parseTime t = Ok d <->
  exists p0 p1 s0 s1 h m s ms,
    t = timeString p0 p1 s0 s1 /\
    Atoi p0 = Some h /\ Atoi p1 = Some m /\
    Atoi s0 = Some s /\ Atoi s1 = Some ms /\
    fieldsInRange h m s ms /\ d = timeOf h m s ms.
Proof.
  split; [apply parseTime_ok_fields|].
  intros (p0 & p1 & s0 & s1 & h & m & s & ms & -> & A0 & A1 & A2 & A3 & R & ->).
  apply parseTime_fields; assumption.
Qed.

(** X3: [parseTimestamps] accepts exactly the lines with one comma whose
    two sides, trimmed of the white space at their ends, are times that
    [parseTime] accepts. *)
Theorem parseTimestamps_accepts_iff (l : string) (s e : Duration) :
  parseTimestamps l = Ok (s, e) <->
  exists a b,
    l = a ++ "," ++ b /\
    ContainsRune a "," = false /\ ContainsRune b "," = false /\
    parseTime (TrimSpace a) = Ok s /\ parseTime (TrimSpace b) = Ok e.
Proof.
  split; [apply parseTimestamps_ok_sides|].
  intros (a & b & -> & Ha & Hb & P0 & P1). unfold parseTimestamps.
  change (a ++ "," ++ b) with (a ++ String "," b).
  rewrite (Split_first _ _ _ Ha), (Split_none _ _ Hb), P0, P1.
  reflexivity.
Qed.

End Grammar.

(** ** Trimming keeps a part of the string *)

Section Trimming.

Lemma ContainsRune_tail (x : ascii) (t : string) (c : ascii) :
  ContainsRune t c = true -> ContainsRune (String x t) c = true.
Proof.
  intros H. rewrite ContainsRune_cons, H. destruct (Ascii.eqb x c); reflexivity.
Qed.

Lemma TrimLeftSpace_contains (c : ascii) (n : nat) :
  forall s, (String.length s <= n)%nat ->
            ContainsRune (TrimLeftSpace s) c = true -> ContainsRune s c = true.
Proof.
  induction n as [|n IH]; intros s L.
  - destruct s; [intros H; exact H | simpl in L; lia].
  - destruct s as [|a t1]; [intros H; exact H|].
    simpl in L. simpl TrimLeftSpace.
    destruct (asciiSpace a).
    { intros H. apply ContainsRune_tail, IH; [lia | exact H]. }
    destruct t1 as [|b t2]; [intros H; exact H|].
    simpl in L. destruct (space2 a b).
    { intros H. do 2 apply ContainsRune_tail. apply IH; [lia | exact H]. }
    destruct t2 as [|c' t3]; [intros H; exact H|].
    simpl in L. destruct (space3 a b c'); [|intros H; exact H].
    intros H. do 3 apply ContainsRune_tail. apply IH; [lia | exact H].
Qed.

Lemma TrimLeftSpaceRev_contains (c : ascii) (n : nat) :
  forall s, (String.length s <= n)%nat ->
            ContainsRune (TrimLeftSpaceRev s) c = true ->
            ContainsRune s c = true.
Proof.
  induction n as [|n IH]; intros s L.
  - destruct s; [intros H; exact H | simpl in L; lia].
  - destruct s as [|a t1]; [intros H; exact H|].
    simpl in L. simpl TrimLeftSpaceRev.
    destruct (asciiSpace a).
    { intros H. apply ContainsRune_tail, IH; [lia | exact H]. }
    destruct t1 as [|b t2]; [intros H; exact H|].
    simpl in L. destruct (space2 b a).
    { intros H. do 2 apply ContainsRune_tail. apply IH; [lia | exact H]. }
    destruct t2 as [|c' t3]; [intros H; exact H|].
    simpl in L. destruct (space3 c' b a); [|intros H; exact H].
    intros H. do 3 apply ContainsRune_tail. apply IH; [lia | exact H].
Qed.

Lemma rev_app (a b : string) : rev (a ++ b) = rev b ++ rev a.
Proof.
  induction a as [|x a IH]; simpl.
  - rewrite append_nil_r. reflexivity.
  - rewrite IH, append_assoc. reflexivity.
Qed.

Lemma rev_involutive (s : string) : rev (rev s) = s.
Proof.
  induction s as [|x s IH]; simpl; [reflexivity|].
  rewrite rev_app, IH. reflexivity.
Qed.

Lemma ContainsRune_rev (s : string) (c : ascii) :
  ContainsRune (rev s) c = ContainsRune s c.
Proof.
  induction s as [|x s IH]; simpl; [reflexivity|].
  rewrite ContainsRune_app, IH. simpl.
  destruct (Ascii.eqb x c), (ContainsRune s c); reflexivity.
Qed.

(** A byte of the trimmed string is a byte of the string. *)
Lemma TrimSpace_contains (s : string) (c : ascii) :
  ContainsRune (TrimSpace s) c = true -> ContainsRune s c = true.
Proof.
  unfold TrimSpace, TrimRightSpace. rewrite ContainsRune_rev. intros H.
  apply (TrimLeftSpace_contains c (String.length s)); [lia|].
  rewrite <- ContainsRune_rev.
  apply (TrimLeftSpaceRev_contains c (String.length (rev (TrimLeftSpace s))));
    [lia | exact H].
Qed.

Lemma dropCR_contains (s : string) (c : ascii) :
  ContainsRune (dropCR s) c = true -> ContainsRune s c = true.
Proof.
  unfold dropCR. destruct (rev s) as [|x r] eqn:E; [intros H; exact H|].
  destruct (Ascii.eqb x cr); [|intros H; exact H].
  intros H. rewrite <- (rev_involutive s), E. simpl.
  rewrite ContainsRune_app, H. reflexivity.
Qed.

End Trimming.

(** ** The times and the lines of the records *)

Section Records.

Local Open Scope list_scope.

(** The times of four fields in range are the whole numbers of
    milliseconds of one day. *)
Lemma validTime_range (d : Duration) :
  validTime d -> 0 <= d < 24 * Hour /\ Z.rem d Millisecond = 0.
Proof.
  intros (h & m & s & ms & (Hh & Hm & Hs & Hms) & ->).
  unfold timeOf, Hour, Minute, Second, Millisecond, Microsecond, Nanosecond.
  split; [lia|].
  rewrite Z.rem_mod_nonneg by lia. symmetry.
  apply Z.mod_unique with (q := ((h * 60 + m) * 60 + s) * 1000 + ms); lia.
Qed.

(** X1: the start and the end of every record of a parse that succeeds
    are whole numbers of milliseconds, from zero to less than 24 hours. *)
Theorem parsed_times_within_a_day (input : string) (subs : list Subtitle)
        (r : Subtitle) :
  ParseFromReader input = (subs, None) -> In r subs ->
  (0 <= StartTime r < 24 * Hour /\ Z.rem (StartTime r) Millisecond = 0) /\
  (0 <= EndTime r < 24 * Hour /\ Z.rem (EndTime r) Millisecond = 0).
Proof.
  intros H I. destruct (ParseFromReader_ok _ _ H) as (lines & _ & P).
  destruct (parsed_records_are_blocks _ _ _ P I)
    as (i & ts & s & e & _ & _ & T & ->).
  destruct (parseTimestamps_valid _ _ _ T) as [Vs Ve].
  split; apply validTime_range; assumption.
Qed.

(** X1 on a record that ends before it starts. *)
Lemma parsed_times_within_a_day_example :
  (0 <= 23 * Hour + 59 * Minute < 24 * Hour /\
   Z.rem (23 * Hour + 59 * Minute) Millisecond = 0) /\
  (0 <= 5 * Millisecond < 24 * Hour /\
   Z.rem (5 * Millisecond) Millisecond = 0).
Proof.
  apply (parsed_times_within_a_day
           ("23:59:00.000,0:00:00.005" ++ NL ++ "late")%string
           [mkSubtitle (23 * Hour + 59 * Minute) (5 * Millisecond) "late"]
           (mkSubtitle (23 * Hour + 59 * Minute) (5 * Millisecond) "late")).
  - vm_compute. reflexivity.
  - left. reflexivity.
Defined.

(** X2: a line that [parseTimestamps] accepts has a comma and a colon: the
    test of [isTimestampLine] passes over no line that would parse. *)
Theorem valid_timestamps_are_recognised (l : string) (s e : Duration) :
  parseTimestamps l = Ok (s, e) -> isTimestampLine l = true.
Proof.
  intros H. apply parseTimestamps_ok_sides in H.
  destruct H as (a & b & -> & _ & _ & Pa & _).
  apply parseTime_ok_fields in Pa.
  destruct Pa as (p0 & p1 & s0 & s1 & h & m & s' & ms & E & _).
  assert (C : ContainsRune (TrimSpace a) ":" = true).
  { rewrite E. unfold timeString. rewrite ContainsRune_app.
    apply orb_true_iff. right. reflexivity. }
  apply TrimSpace_contains in C.
  unfold isTimestampLine. rewrite !ContainsRune_app, C.
  apply andb_true_iff. split; [|reflexivity].
  apply orb_true_iff. right. reflexivity.
Qed.

Lemma valid_timestamps_are_recognised_example :
  isTimestampLine " 1:02:03.004 ,  0:00:00.0" = true.
Proof.
  apply (valid_timestamps_are_recognised " 1:02:03.004 ,  0:00:00.0"
           (timeOf 1 2 3 4) 0).
  vm_compute. reflexivity.
Defined.

(** *** Where the errors come from *)

Lemma reach_le (lines : list string) (i : nat) (acc : list Subtitle) :
  reach lines i acc -> (i <= List.length lines)%nat.
Proof.
  induction 1 as [|i acc line R IH E B|i acc line R IH E B T
                  |i acc line sub n R IH E B T P].
  - lia.
  - assert (i < List.length lines)%nat by (apply nth_error_Some; congruence).
    lia.
  - assert (i < List.length lines)%nat by (apply nth_error_Some; congruence).
    lia.
  - apply parseSubtitleBlock_next in P. lia.
Qed.

(** A parse of the lines that fails has met a timestamp line that is
    malformed, and returns no record. *)
Lemma parseLines_failure (lines : list string) (subs : list Subtitle)
      (err : ParseError) :
  parseLines lines = (subs, Some err) ->
  subs = [] /\
  exists i acc l e,
    reach lines i acc /\ nth_error lines i = Some l /\
    isTimestampLine l = true /\ parseTimestamps l = Err e /\
    err = FailedBlock (FailedTimestamps e).
Proof.
  intros H. pose proof (parseLines_outcome lines) as O. rewrite H in O.
  inversion O as [|j acc' line e Rj Ej Bj Tj Pj Eq]; subst.
  split; [reflexivity|].
  rewrite parseSubtitleBlock_spec, Ej in Pj.
  destruct (parseTimestamps line) as [[s e']|e'] eqn:T; [discriminate|].
  injection Pj as <-. exists j, acc', line, e'. auto.
Qed.

(** X5: a parse that returns an error returns no record, and the error is
    either an error of reading the input (whatever the scanner reports,
    under "error reading input") or the error of a malformed timestamp
    line that the scan has met outside a block; the error
    "start index out of bounds" of [parseSubtitleBlock] never comes out
    of [ParseFromReader]. *)
Theorem parse_errors_come_from_timestamp_lines (input : string)
        (subs : list Subtitle) (err : ParseError) :
  ParseFromReader input = (subs, Some err) ->
  subs = [] /\
  ((exists e, err = ErrorReadingInput e) \/
   exists lines i acc l e,
     readLines input = inl lines /\
     reach lines i acc /\ nth_error lines i = Some l /\
     isTimestampLine l = true /\ parseTimestamps l = Err e /\
     err = FailedBlock (FailedTimestamps e)).
Proof.
  unfold ParseFromReader.
  destruct (readLines input) as [lines|e] eqn:L.
  - intros H. destruct (parseLines_failure _ _ _ H)
      as (-> & i & acc & l & e & R & E & T & P & ->).
    split; [reflexivity|]. right. exists lines, i, acc, l, e. auto 10.
  - intros H. injection H as <- <-. split; [reflexivity|]. left.
    exists e. reflexivity.
Qed.

Lemma parse_errors_example :
  [] = @nil Subtitle /\
  ((exists e,
       FailedBlock (FailedTimestamps
                      (InvalidTimestampFormat "a: 1, b: 2, c: 3")) =
       ErrorReadingInput e) \/
   exists lines i acc l e,
     readLines ("0:00:01.000,0:00:04.000" ++ NL ++ "Hello" ++ NL ++ NL ++
                "a: 1, b: 2, c: 3")%string = inl lines /\
     reach lines i acc /\ nth_error lines i = Some l /\
     isTimestampLine l = true /\ parseTimestamps l = Err e /\
     FailedBlock (FailedTimestamps
                    (InvalidTimestampFormat "a: 1, b: 2, c: 3")) =
     FailedBlock (FailedTimestamps e)).
Proof.
  apply (parse_errors_come_from_timestamp_lines
           ("0:00:01.000,0:00:04.000" ++ NL ++ "Hello" ++ NL ++ NL ++
            "a: 1, b: 2, c: 3")%string).
  vm_compute. reflexivity.
Defined.

(** X6: an input that the scanner reads and in which every line with a
    comma and a colon is a valid pair of times is parsed with success. *)
Theorem valid_timestamp_lines_parse (input : string) (lines : list string) :
  readLines input = inl lines ->
  (forall l, In l lines -> isTimestampLine l = true ->
             exists s e, parseTimestamps l = Ok (s, e)) ->
  exists subs, ParseFromReader input = (subs, None).
Proof.
  intros L V. rewrite (ParseFromReader_lines _ _ L).
  destruct (parseLines lines) as [subs [err|]] eqn:P; [|eauto].
  destruct (parseLines_failure _ _ _ P)
    as (_ & i & acc & l & e & _ & E & T & F & _).
  destruct (V l (nth_error_In _ _ E) T) as (s & e' & Ok'). congruence.
Qed.

Lemma valid_timestamp_lines_parse_example :
  exists subs,
    ParseFromReader ("title" ++ NL ++ "0:00:01.000,0:00:04.000" ++ NL ++
                     "Hello" ++ NL)%string = (subs, None).
Proof.
  apply (valid_timestamp_lines_parse
           ("title" ++ NL ++ "0:00:01.000,0:00:04.000" ++ NL ++
            "Hello" ++ NL)%string
           ["title"; "0:00:01.000,0:00:04.000"; "Hello"]%string).
  - vm_compute. reflexivity.
  - intros l [<-|[<-|[<-|[]]]] T; try discriminate T.
    exists (1 * Second), (4 * Second). vm_compute. reflexivity.
Defined.

(** *** The order of the records *)

Lemma blocksBetween_later (lines : list string) (starts : list nat) :
  forall from to l,
    blocksBetween lines from starts to ->
    nth_error lines to = Some l -> isTimestampLine l = false ->
    blocksBetween lines from starts (S to).
Proof.
  induction starts as [|j rest IH]; simpl; intros from to l H E T.
  - destruct H as [H1 H2]. split; [lia|].
    intros k l' K E'. destruct (Nat.eq_dec k to) as [->|N].
    + congruence.
    + apply (H2 k l'); [lia | exact E'].
  - destruct H as (H1 & H2 & H3).
    split; [exact H1 | split; [exact H2 | eapply IH; eassumption]].
Qed.

Lemma blocksBetween_snoc (lines : list string) (starts : list nat) (j : nat) :
  forall from,
    blocksBetween lines from starts j ->
    blocksBetween lines from (starts ++ [j]) (blockEnd lines j).
Proof.
  induction starts as [|k rest IH]; simpl; intros from H.
  - destruct H as [H1 H2]. split; [exact H1 | split; [exact H2|]].
    split; [lia | intros k l K; lia].
  - destruct H as (H1 & H2 & H3).
    split; [exact H1 | split; [exact H2 | apply IH; exact H3]].
Qed.

Lemma isEmpty_no_timestamp (l : string) :
  isEmpty l = true -> isTimestampLine l = false.
Proof. destruct l; [reflexivity | discriminate]. Qed.

Lemma reach_in_order (lines : list string) (i : nat) (acc : list Subtitle) :
  reach lines i acc ->
  exists starts,
    Forall2 (isBlockAt lines) starts acc /\ blocksBetween lines 0 starts i.
Proof.
  induction 1 as [|i acc line R IH E B|i acc line R IH E B T
                  |i acc line sub n R IH E B T P].
  - exists []. split; [constructor | simpl]. split; [lia|].
    intros k l K. lia.
  - destruct IH as (starts & F & O). exists starts. split; [exact F|].
    eapply blocksBetween_later;
      [exact O | exact E | apply isEmpty_no_timestamp; exact B].
  - destruct IH as (starts & F & O). exists starts. split; [exact F|].
    eapply blocksBetween_later; [exact O | exact E | exact T].
  - destruct IH as (starts & F & O).
    destruct (parseSubtitleBlock_ok _ _ _ _ _ E P) as (s & e & Hp & -> & ->).
    exists (starts ++ [i]). split.
    + apply Forall2_app; [exact F|]. constructor; [|constructor].
      exists line, s, e. auto.
    + apply blocksBetween_snoc. exact O.
Qed.

(** The blocks end where the lines do, at the latest. *)
Lemma blocksBetween_le (lines : list string) (starts : list nat)
      (subs : list Subtitle) :
  forall from to,
    Forall2 (isBlockAt lines) starts subs ->
    blocksBetween lines from starts to -> (from <= to)%nat.
Proof.
  intros from to F. revert from.
  induction F as [|j sub starts subs B F IH]; simpl; intros from H.
  - exact (proj1 H).
  - destruct H as (H1 & _ & H3). apply IH in H3.
    destruct B as (ts & _ & _ & E & _).
    assert (j < List.length lines)%nat by (apply nth_error_Some; congruence).
    pose proof (blockEnd_bounds lines j). lia.
Qed.

(** The lines have one list of blocks only. *)
Lemma blocksBetween_unique (lines : list string) (to : nat)
      (starts : list nat) (subs : list Subtitle) :
  Forall2 (isBlockAt lines) starts subs ->
  forall from starts' subs',
    Forall2 (isBlockAt lines) starts' subs' ->
    blocksBetween lines from starts to ->
    blocksBetween lines from starts' to ->
    starts' = starts /\ subs' = subs.
Proof.
  assert (Last : forall from j sub rest subs0,
             isBlockAt lines j sub ->
             Forall2 (isBlockAt lines) rest subs0 ->
             blocksBetween lines from (j :: rest) to ->
             noTimestampLine lines from to -> False).
  { intros from j sub rest subs0 B F H G.
    pose proof (blocksBetween_le _ _ _ _ _ F (proj2 (proj2 H))) as L.
    destruct H as (H1 & _ & _).
    destruct B as (ts & s & e & E & T & _).
    assert (j < List.length lines)%nat by (apply nth_error_Some; congruence).
    pose proof (blockEnd_bounds lines j).
    assert (N : isTimestampLine ts = false) by (apply (G j ts); [lia | exact E]).
    congruence. }
  induction 1 as [|j sub starts subs B F IH];
    intros from starts' subs' F' H H'.
  - destruct F' as [|j' sub' starts' subs' B' F'].
    + split; reflexivity.
    + exfalso. simpl in H. exact (Last _ _ _ _ _ B' F' H' (proj2 H)).
  - destruct F' as [|j' sub' starts' subs' B' F'].
    + exfalso. simpl in H'. exact (Last _ _ _ _ _ B F H (proj2 H')).
    + simpl in H, H'. destruct H as (H1 & H2 & H3), H' as (H1' & H2' & H3').
      assert (J : j' = j).
      { destruct B as (ts & s & e & E & T & _).
        destruct B' as (ts' & s' & e' & E' & T' & _).
        destruct (Nat.lt_trichotomy j j') as [L | [L | L]].
        - pose proof (H2' j ts (conj H1 L) E). congruence.
        - symmetry. exact L.
        - pose proof (H2 j' ts' (conj H1' L) E'). congruence. }
      subst j'.
      destruct (IH _ _ _ F' H3 H3') as [-> ->].
      destruct B as (ts & s & e & E & T & P & ->).
      destruct B' as (ts' & s' & e' & E' & T' & P' & ->).
      assert (ts' = ts) by congruence. subst ts'.
      assert (Ok (s', e') = (Ok (s, e) : result (Duration * Duration)
                                                TimestampsError))
        by congruence.
      split; [reflexivity | congruence].
Qed.

(** A parse that succeeds ends at the end of the lines. *)
Lemma parseLines_ok_end (lines : list string) (subs : list Subtitle) :
  parseLines lines = (subs, None) -> reach lines (List.length lines) subs.
Proof.
  intros H. pose proof (parseLines_outcome lines) as O. rewrite H in O.
  inversion O as [j more Rj Ej Eq|]; subst. simpl in Rj.
  pose proof (reach_le _ _ _ Rj) as L1.
  apply nth_error_None in Ej.
  replace (List.length lines) with j by lia. exact Rj.
Qed.

(** X7: the records of a parse that succeeds are the blocks of the input
    in the order of the source, all of them and nothing else: the k-th
    record is the block that starts at the k-th line of a list of
    timestamp lines; each block ends at or before the start of the next
    one, so that no line is in two records; no line before the first
    block, between two blocks or after the last one has a comma and a
    colon, so that no block is left out; and the lines have no other
    list of blocks of that kind. *)
Theorem records_in_source_order (input : string) (subs : list Subtitle) :
  ParseFromReader input = (subs, None) ->
  exists lines starts,
    readLines input = inl lines /\
    Forall2 (isBlockAt lines) starts subs /\
    blocksBetween lines 0 starts (List.length lines) /\
    forall starts' subs',
      Forall2 (isBlockAt lines) starts' subs' ->
      blocksBetween lines 0 starts' (List.length lines) ->
      starts' = starts /\ subs' = subs.
Proof.
  intros H. destruct (ParseFromReader_ok _ _ H) as (lines & L & P).
  destruct (reach_in_order _ _ _ (parseLines_ok_end _ _ P))
    as (starts & F & O).
  exists lines, starts. repeat split; try assumption;
    eapply (blocksBetween_unique lines (List.length lines) starts subs F);
    eassumption.
Qed.

Lemma records_in_source_order_example :
  exists lines starts,
    readLines ("0:00:05.000,0:00:06.000" ++ NL ++ "b" ++ NL ++ NL ++
               "0:00:01.000,0:00:02.000" ++ NL ++ "a")%string = inl lines /\
    Forall2 (isBlockAt lines) starts
            [mkSubtitle (5 * Second) (6 * Second) "b";
             mkSubtitle (1 * Second) (2 * Second) "a"] /\
    blocksBetween lines 0 starts (List.length lines) /\
    forall starts' subs',
      Forall2 (isBlockAt lines) starts' subs' ->
      blocksBetween lines 0 starts' (List.length lines) ->
      starts' = starts /\
      subs' = [mkSubtitle (5 * Second) (6 * Second) "b";
               mkSubtitle (1 * Second) (2 * Second) "a"].
Proof.
  apply records_in_source_order. vm_compute. reflexivity.
Defined.

(** *** Blank lines between the blocks *)

Lemma textRun_blank_after (a b b' : list string) :
  (List.length (textRun (a ++ b)) <= List.length a)%nat ->
  textRun (a ++ ""%string :: b') = textRun (a ++ b).
Proof.
  induction a as [|x a IH]; simpl.
  - intros H. destruct (textRun b); [reflexivity | simpl in H; lia].
  - destruct (isEmpty x); [reflexivity|]. simpl.
    intros H. f_equal. apply IH. lia.
Qed.

(** The states of the scan up to a line do not change when an empty line
    is put in at that line. *)
Lemma reach_blank_inserted (pre post : list string) (i : nat)
      (acc : list Subtitle) :
  reach (pre ++ post) i acc -> (i <= List.length pre)%nat ->
  reach (pre ++ ""%string :: post) i acc.
Proof.
  intros R.
  induction R as [|i acc line R IH E B|i acc line R IH E B T
                  |i acc line sub n R IH E B T P]; intros Hi.
  - constructor.
  - apply reach_blank with (line := line); [apply IH; lia | | exact B].
    rewrite nth_error_app1 in E |- * by lia. exact E.
  - apply reach_stray with (line := line);
      [apply IH; lia | | exact B | exact T].
    rewrite nth_error_app1 in E |- * by lia. exact E.
  - pose proof (parseSubtitleBlock_next _ _ _ _ P) as Hn.
    assert (E' : nth_error (pre ++ ""%string :: post) i = Some line)
      by (rewrite nth_error_app1 in E |- * by lia; exact E).
    apply reach_block with (i := i) (line := line);
      [apply IH; lia | exact E' | exact B | exact T |].
    destruct (parseSubtitleBlock_ok _ _ _ _ _ E P) as (s & e & Hp & -> & ->).
    rewrite parseSubtitleBlock_spec, E', Hp.
    assert (X : textRun (skipn (S i) (pre ++ ""%string :: post)) =
                textRun (skipn (S i) (pre ++ post))).
    { rewrite !skipn_app.
      replace (S i - List.length pre)%nat with 0%nat by lia.
      rewrite !skipn_O.
      apply textRun_blank_after.
      unfold blockEnd in Hi. rewrite skipn_app in Hi.
      replace (S i - List.length pre)%nat with 0%nat in Hi by lia.
      rewrite skipn_O in Hi. rewrite length_skipn. lia. }
    unfold blockText, blockEnd. rewrite X. reflexivity.
Qed.

(** X8: an empty line put in where the scan is outside a block (before
    the first block, between two blocks, after the last one) does not
    change the result of the parse. *)
Theorem blank_line_between_blocks (pre post : list string)
        (acc : list Subtitle) :
  reach (pre ++ post) (List.length pre) acc ->
  parseLines (pre ++ ""%string :: post) = parseLines (pre ++ post).
Proof.
  intros R.
  pose proof (reach_blank_inserted pre post _ _ R (Nat.le_refl _)) as R'.
  assert (E : nth_error (pre ++ ""%string :: post) (List.length pre) =
              Some ""%string)
    by (rewrite nth_error_app2, Nat.sub_diag by lia; reflexivity).
  rewrite (reach_scanFrom _ _ _ R'), (scanFrom_unfold _ _ _ _ E).
  rewrite (reach_scanFrom _ _ _ R). simpl isEmpty. cbv iota.
  apply (scanFrom_suffix (List.length (pre ++ ""%string :: post))); [lia|].
  rewrite !skipn_app.
  rewrite (skipn_all2 (n := S (List.length pre)) pre) by lia.
  rewrite (skipn_all2 (n := List.length pre) pre) by lia.
  replace (S (List.length pre) - List.length pre)%nat with 1%nat by lia.
  rewrite Nat.sub_diag. reflexivity.
Qed.

Lemma blank_line_between_blocks_example :
  parseLines ["0:00:01.000,0:00:02.000"; "a"; ""; "";
              "0:00:03.000,0:00:04.000"; "b"]%string =
  parseLines ["0:00:01.000,0:00:02.000"; "a"; "";
              "0:00:03.000,0:00:04.000"; "b"]%string.
Proof.
  apply (blank_line_between_blocks
           ["0:00:01.000,0:00:02.000"; "a"; ""]%string
           ["0:00:03.000,0:00:04.000"; "b"]%string
           [mkSubtitle (1 * Second) (2 * Second) "a"]).
  apply (reach_blank _ 2 _ ""%string); [|reflexivity|reflexivity].
  apply (reach_block _ 0 [] "0:00:01.000,0:00:02.000"%string
                     (mkSubtitle (1 * Second) (2 * Second) "a") 2);
    [apply reach_start | reflexivity | reflexivity | reflexivity |].
  vm_compute. reflexivity.
Defined.

(** *** The lines of a text *)

Lemma Split_parts_without_sep (s : string) (sep : ascii) :
  Forall (fun p => ContainsRune p sep = false) (Split s sep).
Proof.
  induction s as [|x s IH]; simpl.
  - repeat constructor.
  - destruct (Ascii.eqb x sep) eqn:E.
    + constructor; [reflexivity | exact IH].
    + destruct (Split s sep) as [|p ps].
      * constructor; [|constructor]. rewrite ContainsRune_cons, E. reflexivity.
      * inversion IH as [|? ? Hp Hps]; subst.
        constructor; [|exact Hps]. rewrite ContainsRune_cons, E. exact Hp.
Qed.

Lemma not_contains (f : string -> string) (c : ascii) :
  (forall s, ContainsRune (f s) c = true -> ContainsRune s c = true) ->
  forall s, ContainsRune s c = false -> ContainsRune (f s) c = false.
Proof.
  intros H s N. destruct (ContainsRune (f s) c) eqn:E; [|reflexivity].
  apply H in E. congruence.
Qed.

(** The lines that [ParseFromReader] works on hold no newline. *)
Lemma readLines_without_newline (input : string) (lines : list string) :
  readLines input = inl lines ->
  Forall (fun l => ContainsRune l nl = false) lines.
Proof.
  unfold readLines, ScanLines.
  set (raw := match List.rev (Split input nl) with
              | EmptyString :: r => List.rev r
              | _ => Split input nl
              end).
  assert (F : Forall (fun p => ContainsRune p nl = false) raw).
  { subst raw. pose proof (Split_parts_without_sep input nl) as F.
    destruct (List.rev (Split input nl)) as [|[|? ?] r] eqn:E; try exact F.
    apply Forall_rev. apply Forall_rev in F. rewrite E in F.
    inversion F; assumption. }
  destruct (forallb _ raw); [|discriminate].
  intros H. injection H as <-.
  rewrite map_map. apply Forall_map.
  eapply Forall_impl; [|exact F]. intros l Hl. simpl.
  apply (not_contains TrimSpace nl (fun s => TrimSpace_contains s nl)).
  apply (not_contains dropCR nl (fun s => dropCR_contains s nl)). exact Hl.
Qed.

Lemma textRun_lines (P : string -> Prop) (l : list string) :
  Forall P l -> Forall (fun x => x <> EmptyString /\ P x) (textRun l).
Proof.
  induction 1 as [|x l Hx Hl IH]; simpl; [constructor|].
  destruct x as [|c t]; simpl; [constructor|].
  constructor; [split; [discriminate | exact Hx] | exact IH].
Qed.

Lemma Forall_skipn (A : Type) (P : A -> Prop) (n : nat) (l : list A) :
  Forall P l -> Forall P (skipn n l).
Proof.
  intros F. rewrite <- (firstn_skipn n l) in F.
  apply Forall_app in F. tauto.
Qed.

(** X9: the text of every record of a parse that succeeds is made of
    lines joined by single newlines, and none of these lines is empty or
    holds a newline: the text has no blank line and no newline at its
    start or at its end. *)
Theorem text_has_no_blank_line (input : string) (subs : list Subtitle)
        (r : Subtitle) :
  ParseFromReader input = (subs, None) -> In r subs ->
  exists ls,
    Text r = Join ls NL /\
    Forall (fun l => l <> EmptyString /\ ContainsRune l nl = false) ls.
Proof.
  intros H I. destruct (ParseFromReader_ok _ _ H) as (lines & L & P).
  destruct (parsed_records_are_blocks _ _ _ P I)
    as (i & ts & s & e & _ & _ & _ & ->).
  exists (textRun (skipn (S i) lines)). split; [reflexivity|].
  apply textRun_lines, Forall_skipn.
  eapply readLines_without_newline; eassumption.
Qed.

Lemma text_has_no_blank_line_example :
  exists ls,
    ("a b" ++ NL ++ "c")%string = Join ls NL /\
    Forall (fun l => l <> EmptyString /\ ContainsRune l nl = false) ls.
Proof.
  apply (text_has_no_blank_line
           ("0:00:01.000,0:00:02.000" ++ NL ++ " a b " ++ NL ++ "c" ++ NL ++
            "   " ++ NL ++ "d")%string
           [mkSubtitle (1 * Second) (2 * Second) ("a b" ++ NL ++ "c")%string]
           (mkSubtitle (1 * Second) (2 * Second) ("a b" ++ NL ++ "c")%string)).
  - vm_compute. reflexivity.
  - left. reflexivity.
Defined.

End Records.

(** ** The text that the formatter writes *)

Section FormatterText.

Local Open Scope list_scope.

(** The four numbers that [formatSRTTime] prints for a duration that is
    not negative. *)
Lemma formatSRTTime_nonneg (d : Duration) :
  0 <= d ->
  formatSRTTime d =
  (Sprintf0d 2 (d / Hour) ++ ":" ++ Sprintf0d 2 ((d / Minute) mod 60) ++ ":" ++
   Sprintf0d 2 ((d / Second) mod 60) ++ "," ++
   Sprintf0d 3 ((d / 1000000) mod 1000))%string.
Proof.
  intros H. unfold formatSRTTime, Hours, Minutes, Seconds, Nanoseconds.
  rewrite !int_asUnits by reflexivity.
  rewrite !Z.quot_div_nonneg by (try reflexivity; lia).
  rewrite !Z.rem_mod_nonneg;
    try reflexivity; try lia; apply Z.div_pos; (lia || reflexivity).
Qed.

Lemma digitsOfWidth_two (s : string) :
  digitsOfWidth 2 s = true ->
  exists a b, s = String a (String b EmptyString) /\
              isDigit a = true /\ isDigit b = true.
Proof.
  destruct s as [|a [|b [|? ?]]]; simpl; try discriminate.
  - rewrite andb_false_r. discriminate.
  - rewrite andb_true_r. intros H. apply andb_true_iff in H. eauto.
  - rewrite !andb_false_r. discriminate.
Qed.

Lemma Sprintf02d_two_digits (v : Z) :
  0 <= v < 100 -> digitsOfWidth 2 (Sprintf0d 2 v) = true.
Proof.
  intros H.
  apply (allBelow_spec (fun v => digitsOfWidth 2 (Sprintf0d 2 v)) 100);
    [vm_compute; reflexivity | lia].
Qed.

Lemma Sprintf03d_three_digits (v : Z) :
  0 <= v < 1000 -> digitsOfWidth 3 (Sprintf0d 3 v) = true.
Proof.
  intros H.
  apply (allBelow_spec (fun v => digitsOfWidth 3 (Sprintf0d 3 v)) 1000);
    [vm_compute; reflexivity | lia].
Qed.

(** X10: for every duration from zero to less than 100 hours,
    [formatSRTTime] writes a text of the shape [HH:MM:SS,mmm]: twelve
    bytes, digits but for the two colons and the comma. *)
Theorem formatSRTTime_shape (d : Duration) :
  0 <= d < 100 * Hour -> isSRTTime (formatSRTTime d) = true.
Proof.
  intros [H0 H1]. rewrite (formatSRTTime_nonneg d H0).
  assert (Hh : 0 <= d / Hour < 100).
  { split; [apply Z.div_pos; [lia | reflexivity]|].
    apply Z.div_lt_upper_bound; [reflexivity | lia]. }
  assert (Hm : 0 <= (d / Minute) mod 60 < 100)
    by (pose proof (Z.mod_pos_bound (d / Minute) 60 ltac:(lia)); lia).
  assert (Hs : 0 <= (d / Second) mod 60 < 100)
    by (pose proof (Z.mod_pos_bound (d / Second) 60 ltac:(lia)); lia).
  assert (Hms : 0 <= (d / 1000000) mod 1000 < 1000)
    by (apply Z.mod_pos_bound; lia).
  destruct (digitsOfWidth_two _ (Sprintf02d_two_digits _ Hh))
    as (h1 & h2 & -> & Dh1 & Dh2).
  destruct (digitsOfWidth_two _ (Sprintf02d_two_digits _ Hm))
    as (m1 & m2 & -> & Dm1 & Dm2).
  destruct (digitsOfWidth_two _ (Sprintf02d_two_digits _ Hs))
    as (s1 & s2 & -> & Ds1 & Ds2).
  pose proof (Sprintf03d_three_digits _ Hms) as Dms.
  cbn [append isSRTTime].
  rewrite Dh1, Dh2, Dm1, Dm2, Ds1, Ds2, Dms. reflexivity.
Qed.

Lemma formatSRTTime_shape_example :
  isSRTTime (formatSRTTime (99 * Hour + 59 * Minute + 59 * Second +
                            999 * Millisecond + 999 * Microsecond)) = true.
Proof.
  apply formatSRTTime_shape. vm_compute. split; [discriminate | reflexivity].
Defined.

(** X11: [formatSRTTime] cuts a duration from zero to less than 100 hours
    down to whole milliseconds: what is below a millisecond is not
    rounded, it is dropped. *)
Theorem formatSRTTime_truncates (d : Duration) :
  0 <= d < 100 * Hour ->
  formatSRTTime d = formatSRTTime (d - d mod Millisecond).
Proof.
  intros [H _].
  assert (M : Millisecond = 1000000) by reflexivity.
  pose proof (Z.mod_pos_bound d Millisecond ltac:(rewrite M; lia)) as B.
  pose proof (Z.div_mod d Millisecond ltac:(rewrite M; lia)) as D.
  set (q := d / Millisecond) in *.
  assert (E : d - d mod Millisecond = 1000000 * q) by (rewrite M in *; lia).
  assert (Q0 : 0 <= q) by (apply Z.div_pos; rewrite ?M; lia).
  rewrite E, !formatSRTTime_nonneg by lia.
  assert (K : forall k, 0 < k -> (1000000 * q) / (1000000 * k) = d / (1000000 * k)).
  { intros k Hk. rewrite Z.div_mul_cancel_l by lia.
    rewrite <- Z.div_div by lia. rewrite <- M. reflexivity. }
  change Hour with (1000000 * 3600000).
  change Minute with (1000000 * 60000).
  change Second with (1000000 * 1000).
  rewrite !K by lia.
  replace (1000000 * q / 1000000) with (d / 1000000);
    [reflexivity|].
  rewrite Z.mul_comm, Z.div_mul by lia. rewrite <- M. reflexivity.
Qed.

Lemma formatSRTTime_truncates_example :
  formatSRTTime (1 * Second + 999999 * Nanosecond) =
  formatSRTTime (1 * Second).
Proof.
  apply (formatSRTTime_truncates (1 * Second + 999999 * Nanosecond)).
  vm_compute. split; [discriminate | reflexivity].
Defined.

Lemma number_app (a b : list Subtitle) :
  forall n,
    number n (a ++ b) = number n a ++ number (n + Z.of_nat (List.length a)) b.
Proof.
  induction a as [|x a IH]; intros n; simpl.
  - rewrite Z.add_0_r. reflexivity.
  - rewrite IH. do 3 f_equal. lia.
Qed.

Lemma flatten_app (a b : list string) :
  flatten (a ++ b) = (flatten a ++ flatten b)%string.
Proof.
  induction a as [|x a IH]; simpl; [reflexivity|].
  rewrite IH, append_assoc. reflexivity.
Qed.

(** X12: the text for two lists of records one after the other is the text
    for the first list followed by the blocks of the second list, whose
    sequence numbers go on after those of the first. *)
Theorem ConvertToSRT_app (a b : list Subtitle) :
  ConvertToSRT (a ++ b) =
  (ConvertToSRT a ++
   flatten (blocksOf (number (Z.of_nat (List.length a) + 1) b)))%string.
Proof.
  unfold ConvertToSRT. rewrite !convertLoop_blocks.
  rewrite number_app. unfold blocksOf. rewrite map_app, flatten_app.
  replace (0 + 1 + Z.of_nat (List.length a)) with (Z.of_nat (List.length a) + 1)
    by lia.
  reflexivity.
Qed.

(** X13: the formatter writes the empty text for the empty list only. *)
Theorem ConvertToSRT_empty_iff (subtitles : list Subtitle) :
  ConvertToSRT subtitles = EmptyString <-> subtitles = [].
Proof.
  split; [|intros ->; reflexivity].
  unfold ConvertToSRT. rewrite convertLoop_blocks.
  destruct subtitles as [|s rest]; [reflexivity|].
  simpl. unfold srtBlock. simpl fst.
  destruct (Itoa (0 + 1)); discriminate.
Qed.

End FormatterText.

(** ** The lines that the scanner reads *)

Section Reading.

Local Open Scope list_scope.

Lemma len_app (a b : string) : len (a ++ b)%string = len a + len b.
Proof.
  induction a as [|x a IH]; [reflexivity|].
  cbn [append len]. rewrite IH. lia.
Qed.

Lemma len_nonneg (a : string) : 0 <= len a.
Proof. induction a as [|x a IH]; cbn [len]; lia. Qed.

Lemma len_doubled (n : nat) :
  forall s, len (doubled n s) = 2 ^ Z.of_nat n * len s.
Proof.
  induction n as [|n IH]; intros s.
  - cbn [doubled]. change (2 ^ Z.of_nat 0) with 1. lia.
  - cbn [doubled]. rewrite IH, len_app, Nat2Z.inj_succ.
    rewrite Z.pow_succ_r by apply Nat2Z.is_nonneg. ring.
Qed.

Lemma ContainsRune_doubled (c : ascii) (n : nat) :
  forall s, ContainsRune (doubled n s) c = ContainsRune s c.
Proof.
  induction n as [|n IH]; intros s; [reflexivity|].
  cbn [doubled]. rewrite IH, ContainsRune_app. apply orb_diag.
Qed.

(** The scanner refuses a part between two newlines that is as long as
    its buffer. *)
Lemma long_part_is_refused (input l : string) :
  In l (Split input nl) -> MaxScanTokenSize <= len l ->
  ParseFromReader input = ([], Some (ErrorReadingInput ErrTooLong)).
Proof.
  intros I L. unfold ParseFromReader, readLines, ScanLines.
  set (raw := match List.rev (Split input nl) with
              | EmptyString :: r => List.rev r
              | _ => Split input nl
              end).
  assert (I' : In l raw).
  { subst raw. destruct (List.rev (Split input nl)) as [|[|? ?] r] eqn:E;
      try exact I.
    apply in_rev in I. rewrite E in I. destruct I as [<-|I].
    - unfold MaxScanTokenSize in L. simpl in L. lia.
    - apply in_rev in I. exact I. }
  destruct (forallb (fun l => len l <? MaxScanTokenSize) raw) eqn:F;
    [|reflexivity].
  rewrite forallb_forall in F. specialize (F l I').
  apply Z.ltb_lt in F. lia.
Qed.

(** X14: an input with a line of 65536 bytes or more (the bytes between
    two newlines, or before the first or after the last one) is not
    parsed: the scanner stops with its error "token too long", and
    [ParseFromReader] returns that error and no record, whatever the other
    lines are. *)
Theorem line_too_long_fails (input l : string) :
  In l (Split input nl) -> MaxScanTokenSize <= len l ->
  ParseFromReader input = ([], Some (ErrorReadingInput ErrTooLong)).
Proof. exact (long_part_is_refused input l). Qed.

Lemma line_too_long_fails_example :
  ParseFromReader (doubled 16 "a") =
  ([], Some (ErrorReadingInput ErrTooLong)).
Proof.
  apply (line_too_long_fails (doubled 16 "a") (doubled 16 "a")).
  - rewrite Split_none; [left; reflexivity|].
    rewrite ContainsRune_doubled. reflexivity.
  - rewrite len_doubled. vm_compute. discriminate.
Defined.

(** *** Carriage returns *)

Lemma space2_cr (a : ascii) : space2 a cr = false.
Proof.
  unfold space2. change (N_of_ascii cr) with 13%N.
  destruct (N_of_ascii a) as [|p]; [reflexivity|].
  do 8 (try (destruct p as [p|p|]; try reflexivity)).
Qed.

Lemma space3_cr (a b : ascii) : space3 a b cr = false.
Proof.
  unfold space3. change (N_of_ascii cr) with 13%N.
  destruct (N_of_ascii a) as [|p]; [reflexivity|].
  do 8 (try (destruct p as [p|p|]; try reflexivity));
    (destruct (N_of_ascii b) as [|q]; [reflexivity|];
     do 8 (try (destruct q as [q|q|]; try reflexivity))).
Qed.

Lemma TrimLeftSpace_cr (n : nat) :
  forall x, (String.length x <= n)%nat ->
    TrimLeftSpace (x ++ String cr EmptyString)%string =
    match TrimLeftSpace x with
    | EmptyString => EmptyString
    | t => (t ++ String cr EmptyString)%string
    end.
Proof.
  induction n as [|n IH]; intros x L.
  - destruct x; [reflexivity | simpl in L; lia].
  - destruct x as [|a t1]; [reflexivity|].
    simpl in L. cbn [append]. cbn [TrimLeftSpace].
    destruct (asciiSpace a); [apply IH; lia|].
    destruct t1 as [|b t2].
    { cbn [append]. rewrite space2_cr. reflexivity. }
    simpl in L. cbn [append]. destruct (space2 a b); [apply IH; lia|].
    destruct t2 as [|c t3].
    { cbn [append]. rewrite space3_cr. reflexivity. }
    simpl in L. cbn [append]. destruct (space3 a b c); [apply IH; lia|].
    reflexivity.
Qed.

Lemma TrimRightSpace_cr (y : string) :
  TrimRightSpace (y ++ String cr EmptyString)%string = TrimRightSpace y.
Proof.
  unfold TrimRightSpace. rewrite rev_app. reflexivity.
Qed.

(** A carriage return at the end of a line is trimmed with the rest. *)
Lemma TrimSpace_cr (x : string) :
  TrimSpace (x ++ String cr EmptyString)%string = TrimSpace x.
Proof.
  unfold TrimSpace.
  rewrite (TrimLeftSpace_cr (String.length x) x (Nat.le_refl _)).
  destruct (TrimLeftSpace x) as [|c t]; [reflexivity|].
  apply TrimRightSpace_cr.
Qed.

Lemma dropCR_cr (x : string) : dropCR (x ++ String cr EmptyString)%string = x.
Proof.
  unfold dropCR. rewrite rev_app. cbn [rev append].
  change (Ascii.eqb cr cr) with true. cbv iota. apply rev_involutive.
Qed.

(** What [dropCR] drops, [TrimSpace] would have trimmed. *)
Lemma TrimSpace_dropCR (x : string) : TrimSpace (dropCR x) = TrimSpace x.
Proof.
  unfold dropCR. destruct (rev x) as [|c r] eqn:E; [reflexivity|].
  destruct (Ascii.eqb c cr) eqn:C; [|reflexivity].
  apply Ascii.eqb_eq in C. subst c.
  rewrite <- (rev_involutive x), E. cbn [rev].
  rewrite TrimSpace_cr. reflexivity.
Qed.

Lemma addCR_cons (x y : string) (rest : list string) :
  addCR (x :: y :: rest) = (x ++ String cr EmptyString)%string :: addCR (y :: rest).
Proof. reflexivity. Qed.

Lemma addCR_not_nil (l : list string) : l <> [] -> addCR l <> [].
Proof. destruct l as [|x [|y r]]; simpl; congruence. Qed.

(** The parts of the text with carriage returns are the parts of the
    text, a carriage return added to each one but the last. *)
Lemma Split_toCRLF (s : string) : Split (toCRLF s) nl = addCR (Split s nl).
Proof.
  induction s as [|c t IH]; [reflexivity|].
  cbn [toCRLF Split]. destruct (Ascii.eqb c nl) eqn:E.
  - cbn [Split]. change (Ascii.eqb cr nl) with false.
    rewrite Ascii.eqb_refl. cbv iota. rewrite IH.
    destruct (Split t nl) as [|p ps] eqn:Sp;
      [exfalso; revert Sp; apply Split_not_nil|].
    reflexivity.
  - cbn [Split]. rewrite E, IH.
    destruct (Split t nl) as [|p [|q ps]] eqn:Sp;
      [exfalso; revert Sp; apply Split_not_nil | reflexivity | reflexivity].
Qed.

Lemma addCR_snoc (init : list string) (last : string) :
  addCR (init ++ [last]) =
  map (fun x => (x ++ String cr EmptyString)%string) init ++ [last].
Proof.
  induction init as [|x init IH]; [reflexivity|].
  destruct init as [|y init'].
  - reflexivity.
  - change ((x :: y :: init') ++ [last]) with (x :: y :: (init' ++ [last])).
    rewrite addCR_cons. change (y :: init' ++ [last]) with ((y :: init') ++ [last]).
    rewrite IH. reflexivity.
Qed.

Lemma tokensOf_snoc (init : list string) (last : string) :
  tokensOf (init ++ [last]) =
  match last with
  | EmptyString => init
  | _ => init ++ [last]
  end.
Proof.
  unfold tokensOf. rewrite List.rev_app_distr. cbn [List.rev app].
  destruct last; [apply List.rev_involutive | reflexivity].
Qed.

(** The trimmed tokens are the same with and without the carriage
    returns. *)
Lemma trimmed_tokens_toCRLF (parts : list string) :
  parts <> [] ->
  map TrimSpace (map dropCR (tokensOf (addCR parts))) =
  map TrimSpace (map dropCR (tokensOf parts)).
Proof.
  intros N. destruct (exists_last N) as (init & last & ->).
  rewrite addCR_snoc, !tokensOf_snoc.
  assert (M : map TrimSpace (map dropCR
                (map (fun x => (x ++ String cr EmptyString)%string) init)) =
              map TrimSpace (map dropCR init)).
  { rewrite !map_map. apply map_ext. intros x.
    rewrite dropCR_cr, TrimSpace_dropCR. reflexivity. }
  destruct last; [exact M|].
  rewrite !map_app, M. reflexivity.
Qed.

Lemma tokens_short_toCRLF (parts : list string) :
  parts <> [] ->
  forallb (fun l => len l <? MaxScanTokenSize) (tokensOf (addCR parts)) = true ->
  forallb (fun l => len l <? MaxScanTokenSize) (tokensOf parts) = true.
Proof.
  intros N. destruct (exists_last N) as (init & last & ->).
  rewrite addCR_snoc, !tokensOf_snoc.
  assert (M : forallb (fun l => len l <? MaxScanTokenSize)
                (map (fun x => (x ++ String cr EmptyString)%string) init) = true ->
              forallb (fun l => len l <? MaxScanTokenSize) init = true).
  { rewrite !forallb_forall. intros H x I.
    specialize (H _ (in_map _ _ _ I)). cbv beta in H. rewrite len_app in H.
    apply Z.ltb_lt in H. apply Z.ltb_lt.
    pose proof (len_nonneg (String cr EmptyString)). lia. }
  destruct last; [exact M|].
  rewrite !forallb_app. intros H. apply andb_true_iff in H.
  destruct H as [H1 H2]. rewrite (M H1), H2. reflexivity.
Qed.

(** X15: a text with a carriage return before every newline (the line
    ends of Windows), when the scanner reads it, gives the same lines and
    the same result as the text without them. *)
Theorem carriage_returns_are_ignored (input : string) (lines : list string) :
  readLines (toCRLF input) = inl lines ->
  readLines input = inl lines /\
  ParseFromReader (toCRLF input) = ParseFromReader input.
Proof.
  intros H.
  assert (R : readLines input = inl lines).
  { revert H. unfold readLines, ScanLines.
    fold (tokensOf (Split (toCRLF input) nl)).
    fold (tokensOf (Split input nl)).
    rewrite Split_toCRLF.
    destruct (forallb _ (tokensOf (addCR (Split input nl)))) eqn:F;
      [|discriminate].
    rewrite (tokens_short_toCRLF _ (Split_not_nil _ _) F).
    rewrite (trimmed_tokens_toCRLF _ (Split_not_nil _ _)).
    intros E. exact E. }
  split; [exact R|].
  unfold ParseFromReader. rewrite H, R. reflexivity.
Qed.

Lemma carriage_returns_example :
  readLines ("0:00:01.000,0:00:04.000" ++ NL ++ "Hello" ++ NL)%string =
  inl ["0:00:01.000,0:00:04.000"; "Hello"]%string /\
  ParseFromReader
    (toCRLF ("0:00:01.000,0:00:04.000" ++ NL ++ "Hello" ++ NL)%string) =
  ParseFromReader ("0:00:01.000,0:00:04.000" ++ NL ++ "Hello" ++ NL)%string.
Proof.
  apply carriage_returns_are_ignored. vm_compute. reflexivity.
Defined.

End Reading.

(** ** The parser on the text of the formatter *)

Section ParseTheOutput.

Local Open Scope list_scope.

Lemma digit_is_not (c d : ascii) :
  isDigit c = false -> isDigit d = true -> Ascii.eqb d c = false.
Proof.
  intros Hc Hd. destruct (Ascii.eqb d c) eqn:E; [|reflexivity].
  apply Ascii.eqb_eq in E. congruence.
Qed.

Lemma digits_without (c : ascii) (w : nat) :
  isDigit c = false ->
  forall s, digitsOfWidth w s = true -> ContainsRune s c = false.
Proof.
  intros Hc. induction w as [|w IH]; intros [|d t]; simpl; try discriminate.
  - reflexivity.
  - intros H. apply andb_true_iff in H. destruct H as [Hd Ht].
    rewrite (digit_is_not c d Hc Hd). apply IH. exact Ht.
Qed.

(** A digit is no white space, alone or with the bytes around it. *)
Lemma digit_starts_no_space (a : ascii) :
  isDigit a = true ->
  asciiSpace a = false /\ (forall b, space2 a b = false) /\
  (forall b c, space3 a b c = false).
Proof.
  intros H.
  destruct a as [[] [] [] [] [] [] [] []]; try discriminate H;
    repeat split; reflexivity.
Qed.

Lemma digit_ends_no_space (z : ascii) :
  isDigit z = true ->
  (forall b, space2 b z = false) /\ (forall b c, space3 c b z = false).
Proof.
  intros H.
  destruct z as [[] [] [] [] [] [] [] []]; try discriminate H;
    (split;
     [ intros b; unfold space2;
       match goal with
       | |- context [N_of_ascii (Ascii ?a ?b ?c ?d ?e ?f ?g ?h)] =>
           let v := eval vm_compute in (N_of_ascii (Ascii a b c d e f g h)) in
           change (N_of_ascii (Ascii a b c d e f g h)) with v
       end;
       destruct (N_of_ascii b) as [|p]; [reflexivity|];
       do 8 (try (destruct p as [p|p|]; try reflexivity))
     | intros b c; unfold space3;
       match goal with
       | |- context [N_of_ascii (Ascii ?a ?b ?c ?d ?e ?f ?g ?h)] =>
           let v := eval vm_compute in (N_of_ascii (Ascii a b c d e f g h)) in
           change (N_of_ascii (Ascii a b c d e f g h)) with v
       end;
       destruct (N_of_ascii c) as [|p]; [reflexivity|];
       do 8 (try (destruct p as [p|p|]; try reflexivity));
       (destruct (N_of_ascii b) as [|q]; [reflexivity|];
        do 8 (try (destruct q as [q|q|]; try reflexivity))) ]).
Qed.

(** A text between two digits has no white space to trim. *)
Lemma TrimSpace_between_digits (a z : ascii) (t u : string) :
  isDigit a = true -> isDigit z = true ->
  String a t = (u ++ String z EmptyString)%string ->
  TrimSpace (String a t) = String a t.
Proof.
  intros Ha Hz E.
  destruct (digit_starts_no_space a Ha) as (A1 & A2 & A3).
  destruct (digit_ends_no_space z Hz) as (Z2 & Z3).
  assert (Z1 : asciiSpace z = false)
    by (apply (digit_starts_no_space z Hz)).
  assert (L : TrimLeftSpace (String a t) = String a t).
  { cbn [TrimLeftSpace]. rewrite A1.
    destruct t as [|b t2]; [reflexivity|]. rewrite A2.
    destruct t2 as [|c t3]; [reflexivity|]. rewrite A3. reflexivity. }
  unfold TrimSpace. rewrite L, E. unfold TrimRightSpace.
  rewrite rev_app. cbn [rev append TrimLeftSpaceRev]. rewrite Z1.
  assert (R : match rev u with
              | EmptyString => String z (rev u)
              | String b t2 =>
                  if space2 b z then TrimLeftSpaceRev t2
                  else match t2 with
                       | EmptyString => String z (rev u)
                       | String c t3 =>
                           if space3 c b z then TrimLeftSpaceRev t3
                           else String z (rev u)
                       end
              end = String z (rev u)).
  { destruct (rev u) as [|b t2]; [reflexivity|]. rewrite Z2.
    destruct t2 as [|c t3]; [reflexivity|]. rewrite Z3. reflexivity. }
  rewrite R. cbn [rev]. rewrite rev_involutive. reflexivity.
Qed.

Lemma digitsOfWidth_three (s : string) :
  digitsOfWidth 3 s = true ->
  exists a b c, s = String a (String b (String c EmptyString)) /\
                isDigit a = true /\ isDigit b = true /\ isDigit c = true.
Proof.
  destruct s as [|a [|b [|c [|? ?]]]]; simpl; try discriminate.
  - rewrite andb_false_r. discriminate.
  - rewrite !andb_false_r. discriminate.
  - rewrite andb_true_r. intros H.
    apply andb_true_iff in H. destruct H as [Ha H].
    apply andb_true_iff in H. destruct H as [Hb Hc].
    exists a, b, c. auto.
  - rewrite !andb_false_r. discriminate.
Qed.

(** The text of a time from zero to less than 100 hours, byte by byte. *)
Lemma formatSRTTime_bytes (d : Duration) :
  0 <= d < 100 * Hour ->
  exists h1 h2 m1 m2 s1 s2 x y z,
    formatSRTTime d =
    String h1 (String h2 (String ":" (String m1 (String m2 (String ":"
      (String s1 (String s2 (String ","
        (String x (String y (String z EmptyString))))))))))) /\
    isDigit h1 = true /\ isDigit h2 = true /\ isDigit m1 = true /\
    isDigit m2 = true /\ isDigit s1 = true /\ isDigit s2 = true /\
    isDigit x = true /\ isDigit y = true /\ isDigit z = true.
Proof.
  intros [H0 H1]. rewrite (formatSRTTime_nonneg d H0).
  assert (Hh : 0 <= d / Hour < 100).
  { split; [apply Z.div_pos; [lia | reflexivity]|].
    apply Z.div_lt_upper_bound; [reflexivity | lia]. }
  assert (Hm : 0 <= (d / Minute) mod 60 < 100)
    by (pose proof (Z.mod_pos_bound (d / Minute) 60 ltac:(lia)); lia).
  assert (Hs : 0 <= (d / Second) mod 60 < 100)
    by (pose proof (Z.mod_pos_bound (d / Second) 60 ltac:(lia)); lia).
  assert (Hms : 0 <= (d / 1000000) mod 1000 < 1000)
    by (apply Z.mod_pos_bound; lia).
  destruct (digitsOfWidth_two _ (Sprintf02d_two_digits _ Hh))
    as (h1 & h2 & -> & Dh1 & Dh2).
  destruct (digitsOfWidth_two _ (Sprintf02d_two_digits _ Hm))
    as (m1 & m2 & -> & Dm1 & Dm2).
  destruct (digitsOfWidth_two _ (Sprintf02d_two_digits _ Hs))
    as (s1 & s2 & -> & Ds1 & Ds2).
  destruct (digitsOfWidth_three _ (Sprintf03d_three_digits _ Hms))
    as (x & y & z & -> & Dx & Dy & Dz).
  exists h1, h2, m1, m2, s1, s2, x, y, z. cbn [append]. auto 12.
Qed.

(** A line with two commas is no pair of times. *)
Lemma two_commas_are_rejected (x y z : string) :
  ContainsRune x "," = false -> ContainsRune y "," = false ->
  ContainsRune z "," = false ->
  parseTimestamps (x ++ String "," (y ++ String "," z)) =
  Err (InvalidTimestampFormat (x ++ String "," (y ++ String "," z)))%string.
Proof.
  intros Hx Hy Hz. unfold parseTimestamps.
  rewrite (Split_first _ _ _ Hx), (Split_first _ _ _ Hy), (Split_none _ _ Hz).
  reflexivity.
Qed.

(** The line of the two times of an SRT block. *)
Lemma timesLine_facts (s e : Duration) :
  0 <= s < 100 * Hour -> 0 <= e < 100 * Hour ->
  let T := (formatSRTTime s ++ " --> " ++ formatSRTTime e)%string in
  ContainsRune T nl = false /\ TrimSpace T = T /\
  isTimestampLine T = true /\
  parseTimestamps T = Err (InvalidTimestampFormat T).
Proof.
  intros Hs He T. subst T.
  destruct (formatSRTTime_bytes s Hs)
    as (a1 & a2 & a3 & a4 & a5 & a6 & a7 & a8 & a9 & -> &
        A1 & A2 & A3 & A4 & A5 & A6 & A7 & A8 & A9).
  destruct (formatSRTTime_bytes e He)
    as (b1 & b2 & b3 & b4 & b5 & b6 & b7 & b8 & b9 & -> &
        B1 & B2 & B3 & B4 & B5 & B6 & B7 & B8 & B9).
  cbn [append].
  pose proof (fun d => digit_is_not nl d eq_refl) as Nn.
  pose proof (fun d => digit_is_not "," d eq_refl) as Nc.
  pose proof (fun d => digit_is_not ":" d eq_refl) as Nk.
  repeat split.
  - cbn [ContainsRune].
    repeat match goal with
           | H : isDigit ?d = true |- _ => rewrite (Nn d H)
           end.
    reflexivity.
  - apply (TrimSpace_between_digits a1 b9 _
             (String a1 (String a2 (String ":" (String a3 (String
               a4 (String ":" (String a5 (String a6 (String ","
               (String a7 (String a8 (String a9 (String " "
               (String "-" (String "-" (String ">" (String " "
               (String b1 (String b2 (String ":" (String b3
               (String b4 (String ":" (String b5 (String b6
               (String "," (String b7 (String b8
               EmptyString)))))))))))))))))))))))))))));
      [assumption | assumption | reflexivity].
  - unfold isTimestampLine. cbn [ContainsRune].
    repeat match goal with
           | H : isDigit ?d = true |- _ => rewrite (Nc d H)
           end.
    repeat match goal with
           | H : isDigit ?d = true |- _ => rewrite (Nk d H)
           end.
    reflexivity.
  - apply (two_commas_are_rejected
             (String a1 (String a2 (String ":" (String a3 (String a4
                (String ":" (String a5 (String a6 EmptyString))))))))
             (String a7 (String a8 (String a9 (String " " (String "-"
                (String "-" (String ">" (String " " (String b1 (String b2
                (String ":" (String b3 (String b4 (String ":" (String b5
                (String b6 EmptyString))))))))))))))))
             (String b7 (String b8 (String b9 EmptyString))));
      cbn [ContainsRune];
      repeat match goal with
             | H : isDigit ?d = true |- _ => rewrite (Nc d H)
             end;
      reflexivity.
Qed.

Lemma tokensOf_cons (x : string) (l : list string) :
  l <> [] -> tokensOf (x :: l) = x :: tokensOf l.
Proof.
  intros N. destruct (exists_last N) as (init & last & ->).
  change (x :: init ++ [last]) with ((x :: init) ++ [last]).
  rewrite !tokensOf_snoc. destruct last; reflexivity.
Qed.

(** X16: the parser does not read the text of the formatter.  For a list
    of records that is not empty, the first one with its times from zero
    to less than 100 hours, [ParseFromReader] on the text of
    [ConvertToSRT] returns no record and an error: the line of the two
    times has two commas (or the scanner stops at a line too long of a
    text). *)
Theorem SRT_text_is_not_parsed (r : Subtitle) (rest : list Subtitle) :
  0 <= StartTime r < 100 * Hour -> 0 <= EndTime r < 100 * Hour ->
  let T := (formatSRTTime (StartTime r) ++ " --> " ++
            formatSRTTime (EndTime r))%string in
  ParseFromReader (ConvertToSRT (r :: rest)) =
  ([], Some (ErrorReadingInput ErrTooLong)) \/
  ParseFromReader (ConvertToSRT (r :: rest)) =
  ([], Some (FailedBlock (FailedTimestamps (InvalidTimestampFormat T)))).
Proof.
  intros Hs He T.
  destruct (timesLine_facts _ _ Hs He) as (Tn & Tt & Ti & Tp).
  fold T in Tn, Tt, Ti, Tp.
  assert (E : exists tail,
             ConvertToSRT (r :: rest) =
             ("1" ++ String nl (T ++ String nl tail))%string).
  { exists ((Text r ++ NL ++ NL) ++
            flatten (blocksOf (number (0 + 1 + 1) rest)))%string.
    unfold ConvertToSRT. rewrite convertLoop_blocks.
    cbn [number blocksOf map flatten fst snd].
    unfold srtBlock. change (Itoa (0 + 1)) with "1"%string.
    unfold T, NL. rewrite !append_assoc. cbn [append]. reflexivity. }
  destruct E as [tail ->]. clearbody T.
  unfold ParseFromReader, readLines, ScanLines.
  fold (tokensOf (Split ("1" ++ String nl (T ++ String nl tail)) nl)).
  rewrite (Split_first "1" _ nl eq_refl), (Split_first T tail nl Tn).
  rewrite !tokensOf_cons
    by (try discriminate; apply Split_not_nil).
  destruct (forallb _ _); [|left; reflexivity].
  right. cbn [map].
  rewrite (TrimSpace_dropCR T), Tt.
  change (TrimSpace (dropCR "1")) with "1"%string.
  set (lt := map TrimSpace (map dropCR (tokensOf (Split tail nl)))).
  apply (reach_failed_block ("1"%string :: T :: lt) 1 [] T
                            (InvalidTimestampFormat T)).
  - apply (reach_stray _ 0 [] "1"%string);
      [apply reach_start | reflexivity | reflexivity | reflexivity].
  - reflexivity.
  - exact Ti.
  - exact Tp.
Qed.

Lemma SRT_text_is_not_parsed_example :
  ParseFromReader (ConvertToSRT [mkSubtitle (1 * Second) (4 * Second) "X"]) =
  ([], Some (ErrorReadingInput ErrTooLong)) \/
  ParseFromReader (ConvertToSRT [mkSubtitle (1 * Second) (4 * Second) "X"]) =
  ([], Some (FailedBlock (FailedTimestamps
     (InvalidTimestampFormat "00:00:01,000 --> 00:00:04,000")))).
Proof.
  apply (SRT_text_is_not_parsed (mkSubtitle (1 * Second) (4 * Second) "X") []);
    vm_compute; split; (discriminate || reflexivity).
Defined.

End ParseTheOutput.

(** ** Stray lines that the scanner does not read *)

Section LongStrayLines.

Local Open Scope list_scope.

Lemma doubled_starts (n : nat) :
  forall s, exists u, doubled n s = (s ++ u)%string.
Proof.
  induction n as [|n IH]; intros s.
  - exists ""%string. cbn [doubled]. rewrite append_nil_r. reflexivity.
  - cbn [doubled]. destruct (IH (s ++ s)%string) as [u E].
    exists (s ++ u)%string. rewrite E. apply append_assoc.
Qed.

Lemma doubled_ends (n : nat) :
  forall s, exists u, doubled n s = (u ++ s)%string.
Proof.
  induction n as [|n IH]; intros s.
  - exists ""%string. reflexivity.
  - cbn [doubled]. destruct (IH (s ++ s)%string) as [u E].
    exists (u ++ s)%string. rewrite E. symmetry. apply append_assoc.
Qed.

(** C8 as it is worded does not hold for every input: a line of 65536
    zeros is not empty once trimmed and has no comma and no colon, so it
    is a stray line, and it is the whole input; the scanner does not read
    it, and the parse returns the error of the scanner, not the empty
    sequence of records without an error. *)
Lemma long_stray_line_is_an_error : ~ stray_lines_cause_no_error.
Proof.
  intros H. specialize (H (doubled 16 "0")).
  destruct (doubled_starts 16 "0") as [t Et].
  destruct (doubled_ends 16 "0") as [u Eu].
  assert (C : forall c, ContainsRune (doubled 16 "0") c = ContainsRune "0" c)
    by (intros c; apply ContainsRune_doubled).
  assert (L : len (doubled 16 "0") = 65536)
    by (rewrite len_doubled; reflexivity).
  assert (P : ParseFromReader (doubled 16 "0") =
              ([], Some (ErrorReadingInput ErrTooLong))).
  { apply (long_part_is_refused _ (doubled 16 "0")).
    - rewrite Split_none; [left; reflexivity|]. rewrite C. reflexivity.
    - rewrite L. vm_compute. discriminate. }
  rewrite P in H.
  assert (N : ([] : list Subtitle, Some (ErrorReadingInput ErrTooLong)) <>
              ([], None)) by discriminate.
  apply N, H.
  rewrite Split_none by (rewrite C; reflexivity).
  constructor; [|constructor].
  assert (T : TrimSpace (doubled 16 "0") = doubled 16 "0").
  { rewrite Et. cbn [append].
    apply (TrimSpace_between_digits "0" "0" t u); try reflexivity.
    change (String "0" t) with ("0" ++ t)%string. rewrite <- Et. exact Eu. }
  rewrite T. split.
  - rewrite Et. discriminate.
  - unfold isTimestampLine. rewrite !C. reflexivity.
Qed.

End LongStrayLines.
